(** * Verification of the exoplanets data-loading pipeline

    Shallow embedding of [src/python/data_loading.py]:
    - [set_index_remove_null_columns], the recursive table reducer;
    - [load_exoplanet_data], the caching loader.

    A pandas [DataFrame] is modelled column-major, as pandas stores it: a row
    index (optional name, one label per row) and an ordered list of labelled,
    typed columns, each holding one cell per row.  A cell is [None] when
    [isnull()] reports it (NaN, None, NaT) and [Some v] otherwise.

    Scope of the model:
    - the dtype of a column is carried by the column, not recomputed from the
      cells, and is identified by a string: for a numpy dtype the name pandas
      reports (int64, float64, object), and for an extension dtype a string
      that tells it from every other dtype (two categorical dtypes over
      different categories are different dtypes and are written
      differently); two columns carry the same string exactly when pandas
      finds their dtypes equal;
    - cells are compared by value, as pandas does: [1], [True] and [1.0] are
      the same value;
    - column labels are meant to be distinct, as [pd.read_csv] makes them;
      the statements that need this say so ([NoDup]);
    - exceptions are outcomes: the assertion of line 67, the [TypeError] that
      the [groupby] of line 76 raises on dtypes it cannot sort, an exception
      out of the plotting code of lines 105-131, and in the loader a query,
      a write or a read that fails;
    - what is printed is recorded as events, not as formatted text; the
      reports of the loop of lines 76-78 are one event that lists the
      reported columns, without their grouping by dtype;
    - matplotlib is a parameter: its backend name, and whether drawing a
      figure succeeds;
    - POSIX paths. *)

From stdpp Require Import base list strings gmap.
From Stdlib Require Import ZArith Lia.

Local Open Scope string_scope.
Local Open Scope nat_scope.

(** ** Data model *)

Inductive value : Type :=
  | VInt (n : Z)
  | VFloat (m e : Z)      (* the finite float m * 2^e *)
  | VBool (b : bool)
  | VStr (s : string).

Global Instance value_eq_dec : EqDecision value.
Proof. solve_decision. Defined.

Definition cell : Type := option value.

Record Column : Type := mkColumn {
  label : string;
  dtype : string;          (* the dtype: int64, float64, object, category *)
  cells : list cell
}.

Global Instance Column_eq_dec : EqDecision Column.
Proof. solve_decision. Defined.

Record DataFrame : Type := mkDataFrame {
  index_name : option string;
  index : list cell;
  columns : list Column
}.

Global Instance DataFrame_eq_dec : EqDecision DataFrame.
Proof. solve_decision. Defined.

(** [df.shape] *)
Definition nrows (df : DataFrame) : nat := length (index df).
Definition ncols (df : DataFrame) : nat := length (columns df).
Definition column_labels (df : DataFrame) : list string := label <$> columns df.

(** A frame is rectangular: every column has one cell per index label. *)
Definition rectangular (df : DataFrame) : Prop :=
  Forall (λ c, length (cells c) = nrows df) (columns df).

Global Instance rectangular_dec df : Decision (rectangular df).
Proof. unfold rectangular. apply _. Defined.

(** ** Values as pandas compares them

    pandas hashes and compares cells by value: the integer 1, the boolean
    [True] and the float 1.0 are one value, and a string equals only itself.
    [by_value v] is the representative of [v] among the values equal to it:
    a number that is an integer as [VInt], any other float with an odd
    mantissa. *)

(** Divides [m] by two up to [k] times, as long as it is even: the mantissa
    reached and the number of binary places still behind the point. *)
Fixpoint halve (k : nat) (m : Z) : Z * nat :=
  match k with
  | 0 => (m, 0)
  | S k' => if Z.even m then halve k' (m / 2) else (m, k)
  end.

Definition by_value (v : value) : value :=
  match v with
  | VInt n => VInt n
  | VBool b => VInt (Z.b2z b)
  | VFloat m e =>
      if (0 <=? e)%Z then VInt (m * 2 ^ e)
      else match halve (Z.to_nat (- e)) m with
           | (m', 0) => VInt m'
           | (m', k) => VFloat m' (- Z.of_nat k)
           end
  | VStr s => VStr s
  end.

(** ** pandas primitives used by the reducer *)

Definition is_null (x : cell) : bool :=
  match x with None => true | Some _ => false end.

(** Boolean-mask selection [s[mask]]: keeps the positions where the mask
    holds. *)
Fixpoint select {A : Type} (mask : list bool) (l : list A) : list A :=
  match mask, l with
  | b :: mask', x :: l' => if b then x :: select mask' l' else select mask' l'
  | _, _ => []
  end.

(** [df.isnull().all(axis=1)]: one flag per row, true when the row is null in
    every column.  Over no columns at all the conjunction is true. *)
Definition null_rows (df : DataFrame) : list bool :=
  foldr (λ c acc, zip_with andb (is_null <$> cells c) acc)
        (replicate (nrows df) true) (columns df).

(** Number of rows a mask keeps. *)
Definition kept_rows (mask : list bool) : nat :=
  length (filter (λ b, b = true) mask).

(** [c[keep]] on one column. *)
Definition select_cells (keep : list bool) (c : Column) : Column :=
  mkColumn (label c) (dtype c) (select keep (cells c)).

(** [df[~null_rows]]: a new frame holding the rows that are not null across
    every column; the surviving rows keep their index labels. *)
Definition drop_null_rows (df : DataFrame) : DataFrame :=
  let keep := negb <$> null_rows df in
  {| index_name := index_name df;
     index := select keep (index df);
     columns := select_cells keep <$> columns df |}.

(** [Series.nunique()]: number of distinct non-null values. *)
Definition nunique (cs : list cell) : nat :=
  length (remove_dups (by_value <$> omap id cs)).

(** [Series.isnull().sum()] *)
Definition count_nulls (cs : list cell) : nat :=
  length (filter (λ x, x = None) cs).

(** [pd.RangeIndex(start=0, stop=n, step=1)] *)
Definition range_index (n : nat) : list cell :=
  (λ i, Some (VInt (Z.of_nat i))) <$> seq 0 n.

(** [df.index.name is None and df.index.equals(pd.RangeIndex(0, len(df)))]:
    [equals] compares the labels with 0..n-1 by value. *)
Definition has_default_index (df : DataFrame) : bool :=
  bool_decide (index_name df = None)
  && bool_decide (fmap by_value <$> index df = range_index (nrows df)).

(** [df.set_index(c, inplace=True)] with the default [drop=True]: the cells of
    column [c] become the index labels, the index takes the name [c], and the
    column leaves the column set.  The reducer only passes a label that is
    there; for the sake of totality a missing label leaves no index label. *)
Definition set_index (c : string) (df : DataFrame) : DataFrame :=
  {| index_name := Some c;
     index := match list_find (λ k, label k = c) (columns df) with
              | Some (_, k) => cells k
              | None => []
              end;
     columns := filter (λ k, label k ≠ c) (columns df) |}.

(** [df.drop(labels, axis=1, inplace=True)] *)
Definition drop_columns (ls : list string) (df : DataFrame) : DataFrame :=
  {| index_name := index_name df;
     index := index df;
     columns := filter (λ k, label k ∉ ls) (columns df) |}.

(** ** Column statistics (lines 39-55) *)

Record ColumnStat : Type := mkStat {
  stat_label : string;
  data_type : string;
  null_count : nat;
  unique_count : nat
}.

Global Instance ColumnStat_eq_dec : EqDecision ColumnStat.
Proof. solve_decision. Defined.

(** Lines 44-52 for one column.  The two [reindex] calls (lines 46, 51) discard
    their result and change nothing.  Line 47 zeroes unique counts of at most
    one; line 52 then tests the zeroed counts and forces the null count to the
    row count. *)
Definition column_stat (n : nat) (c : Column) : ColumnStat :=
  let u := nunique (cells c) in
  let u' := if bool_decide (u ≤ 1) then 0 else u in
  let z := count_nulls (cells c) in
  let z' := if bool_decide (u' ≤ 1) then n else z in
  {| stat_label := label c; data_type := dtype c;
     null_count := z'; unique_count := u' |}.

Definition columns_statistics (df : DataFrame) : list ColumnStat :=
  column_stat (nrows df) <$> columns df.

(** Line 58: [columns_statistics['Unique Count'] == nrows] *)
Definition is_fully_unique (n : nat) (s : ColumnStat) : bool :=
  bool_decide (unique_count s = n).

(** Line 61: fully-unique columns whose dtype is not float64. *)
Definition can_be_index (n : nat) (st : list ColumnStat) : list string :=
  stat_label <$>
    filter (λ s, is_fully_unique n s && bool_decide (data_type s ≠ "float64")) st.

(** Lines 72, 75: columns whose null count reaches [nrows // 2]. *)
Definition is_high_null (n : nat) (s : ColumnStat) : bool :=
  bool_decide (n / 2 ≤ null_count s).

Definition high_null_columns (n : nat) (st : list ColumnStat) : list string :=
  stat_label <$> filter (λ s, is_high_null n s) st.

(** ** Feature counts (lines 57, 83-95) *)

(** A pandas Series of counts keyed by dtype name. *)
Definition Series : Type := list (string * Z).

Definition count_of (k : string) (l : list string) : Z :=
  Z.of_nat (length (filter (λ x, x = k) l)).

(** The distinct keys of a list, in order of first appearance. *)
Fixpoint unique (l : list string) : list string :=
  match l with
  | [] => []
  | x :: l' => x :: filter (λ y, y ≠ x) (unique l')
  end.

(** Puts an entry in front of the first entry that is not more frequent. *)
Fixpoint insert_by_count (p : string * Z) (s : Series) : Series :=
  match s with
  | [] => [p]
  | q :: s' =>
      if decide (q.2 ≤ p.2)%Z then p :: q :: s' else q :: insert_by_count p s'
  end.

(** [Series.value_counts()]: one entry per distinct key, most frequent first,
    equally frequent keys in order of first appearance. *)
Definition value_counts (l : list string) : Series :=
  foldr insert_by_count [] ((λ k, (k, count_of k l)) <$> unique l).

(** [s[k]], when the key is there. *)
Fixpoint series_get (k : string) (s : Series) : option Z :=
  match s with
  | [] => None
  | (k', v) :: s' => if decide (k' = k) then Some v else series_get k s'
  end.

(** [s.reindex(keys, fill_value=0)] *)
Definition reindex (keys : list string) (s : Series) : Series :=
  (λ k, (k, default 0%Z (series_get k s))) <$> keys.

(** [a - b] on two Series carrying the same keys (line 89; the [fillna] of
    line 93 then has nothing to fill). *)
Definition series_sub (a b : Series) : Series :=
  (λ p : string * Z, (p.1, (p.2 - default 0 (series_get p.1 b))%Z)) <$> a.

Record FeatureRow : Type := mkRow {
  row_key : string;
  without_nulls : Z;        (* 'Features Without Nulls' *)
  fully_unique : Z;         (* 'Features Fully Unique' *)
  rest : Z;                 (* 'Rest' *)
  total_per_dtype : Z       (* 'Total per dtype' *)
}.

Global Instance FeatureRow_eq_dec : EqDecision FeatureRow.
Proof. solve_decision. Defined.

Definition sum_field (f : FeatureRow → Z) (rows : list FeatureRow) : Z :=
  foldr Z.add 0%Z (f <$> rows).

(** Lines 90-94: the three Series side by side, then the row sum. *)
Definition dtype_rows (no_nulls fully rest_ : Series) : list FeatureRow :=
  (λ p : string * Z,
     let a := p.2 in
     let b := default 0%Z (series_get p.1 fully) in
     let r := default 0%Z (series_get p.1 rest_) in
     mkRow p.1 a b r (a + b + r)) <$> no_nulls.

(** Line 95: column sums appended as the row labelled 'Total'. *)
Definition total_row (rows : list FeatureRow) : FeatureRow :=
  mkRow "Total" (sum_field without_nulls rows) (sum_field fully_unique rows)
        (sum_field rest rows) (sum_field total_per_dtype rows).

Record FeatureCounts : Type := mkCounts {
  per_dtype : list FeatureRow;
  grand_total : FeatureRow
}.

Global Instance FeatureCounts_eq_dec : EqDecision FeatureCounts.
Proof. solve_decision. Defined.

Definition feature_counts (df : DataFrame) (st : list ColumnStat) : FeatureCounts :=
  let n := nrows df in
  let dtypes_counts := value_counts (dtype <$> columns df) in
  let no_nulls_counts :=
    reindex dtypes_counts.*1
      (value_counts (data_type <$> filter (λ s, null_count s = 0) st)) in
  let fully_unique_counts :=
    reindex dtypes_counts.*1
      (value_counts (data_type <$> filter (λ s, is_fully_unique n s) st)) in
  let rest_counts :=
    series_sub (series_sub dtypes_counts fully_unique_counts) no_nulls_counts in
  let rows := dtype_rows no_nulls_counts fully_unique_counts rest_counts in
  {| per_dtype := rows; grand_total := total_row rows |}.

(** The feature counts of a frame without columns: no per-dtype row and a
    'Total' row of zeros. *)
Definition no_features : FeatureCounts :=
  mkCounts [] (mkRow "Total" 0 0 0 0).

(** ** Sorting the dtypes of the pruned columns (line 76)

    [null_columns.groupby('Data Type')] sorts its group keys, here the dtype
    objects of the columns about to be dropped.  A single key is compared
    with nothing.  Two numpy dtypes compare under [<] (by safe casting), so
    any number of them sorts; an extension dtype of pandas (category, str,
    Int64, a time zone aware datetime) compares with no other dtype, and
    sorting it together with any other key raises [TypeError].
    [numpy_dtypes] lists the numpy dtypes a frame can hold; every other
    string stands for an extension dtype. *)

Definition numpy_dtypes : list string :=
  ["bool"; "int8"; "int16"; "int32"; "int64";
   "uint8"; "uint16"; "uint32"; "uint64";
   "float16"; "float32"; "float64"; "complex64"; "complex128"; "object";
   "datetime64[s]"; "datetime64[ms]"; "datetime64[us]"; "datetime64[ns]";
   "timedelta64[s]"; "timedelta64[ms]"; "timedelta64[us]"; "timedelta64[ns]"].

Definition groupby_sorts (keys : list string) : bool :=
  bool_decide (length (remove_dups keys) ≤ 1)
  || forallb (λ k, bool_decide (k ∈ numpy_dtypes)) keys.

(** ** One pass of the reducer

    [reduce_pass] is the body of [set_index_remove_null_columns] up to the
    point where it calls itself (lines 68 and 80), raises in the [groupby]
    of line 76, or goes on to the feature counts (lines 83-95).  [working]
    is the frame bound to the local name [df] at line 38. *)

(** The three figures of lines 105-131. *)
Inductive figure : Type :=
  | NullsPerColumn      (* lines 105-114 *)
  | NullsPerRow         (* lines 116-122 *)
  | UniquePerColumn.    (* lines 124-131 *)

Global Instance figure_eq_dec : EqDecision figure.
Proof. solve_decision. Defined.

Inductive message : Type :=
  | NoSingleColumn                          (* line 63 *)
  | SettingIndex (c : string)               (* line 65 *)
  | MultipleColumns (cs : list string)      (* line 70 *)
  | DroppingHeader                          (* line 74 *)
  | DroppingColumns (cs : list string)      (* lines 76-78, one event *)
  | ShowStatistics (st : list ColumnStat)   (* line 100 *)
  | ShowFeatureCounts (fc : FeatureCounts)  (* line 101 *)
  | AggWarning                              (* line 103 *)
  | ShowFigure (f : figure)                 (* lines 114, 122, 131 *)
  | FinalShape (r c : nat).                 (* line 132 *)

Global Instance message_eq_dec : EqDecision message.
Proof. solve_decision. Defined.

Inductive action : Type :=
  | Promote (c : string)          (* lines 65-68: set the index, restart *)
  | Prune (cs : list string)      (* lines 74-80: drop columns, restart *)
  | GroupbyRaises                 (* lines 74-76: TypeError, nothing dropped *)
  | Finish (fc : FeatureCounts).  (* lines 83-95 *)

Record Pass : Type := mkPass {
  working : DataFrame;
  statistics : list ColumnStat;
  printed : list message;
  act : action
}.

(** Lines 72-95, reached when no index was set in this pass.  The header of
    line 74 is printed before the [groupby] of line 76 sorts the dtypes of
    the columns to drop; the drop of line 79 comes after the loop. *)
Definition prune_or_finish (df : DataFrame) (st : list ColumnStat)
    (msgs : list message) : Pass :=
  let high := high_null_columns (nrows df) st in
  if bool_decide (high = [])
  then mkPass df st msgs (Finish (feature_counts df st))
  else
    let null_columns := filter (λ s, is_high_null (nrows df) s) st in
    if groupby_sorts (data_type <$> null_columns)
    then mkPass df st (msgs ++ [DroppingHeader; DroppingColumns high])%list
                (Prune high)
    else mkPass df st (msgs ++ [DroppingHeader])%list GroupbyRaises.

Definition reduce_pass (df0 : DataFrame) : Pass :=
  let df := drop_null_rows df0 in
  let st := columns_statistics df in
  if has_default_index df then
    match can_be_index (nrows df) st with
    | [] => prune_or_finish df st [NoSingleColumn]
    | [c] => mkPass df st [SettingIndex c] (Promote c)
    | cs => prune_or_finish df st [MultipleColumns cs]
    end
  else prune_or_finish df st [].

(** The frame handed to the recursive call, when there is one. *)
Definition restart (p : Pass) : option DataFrame :=
  match act p with
  | Promote c => Some (set_index c (working p))
  | Prune cs => Some (drop_columns cs (working p))
  | GroupbyRaises | Finish _ => None
  end.

(** ** The reducer *)

Inductive error : Type :=
  | AssertionError (c : string)   (* line 67 *)
  | TypeError                     (* line 76: the dtypes do not sort *)
  | PlotError (f : figure).       (* lines 105-131: drawing [f] raised *)

Global Instance error_eq_dec : EqDecision error.
Proof. solve_decision. Defined.

(** How a call ends: it returns, or an exception leaves it after the given
    messages were printed; [OutOfFuel] is the model's, not the program's. *)
Inductive outcome (A : Type) : Type :=
  | Returned (a : A)
  | Raised (e : error) (out : list message)
  | OutOfFuel.
Arguments Returned {A} a.
Arguments Raised {A} e out.
Arguments OutOfFuel {A}.

(** What a run yields: the pair returned at line 133, together with the frame
    bound to [df] at that point and everything printed on the way. *)
Record Reduced : Type := mkReduced {
  final_table : DataFrame;
  column_stats : list ColumnStat;
  counts : FeatureCounts;
  output : list message
}.

Definition returned_value (r : Reduced) : list ColumnStat * FeatureCounts :=
  (column_stats r, counts r).

Definition and_then (msgs : list message) (o : outcome Reduced) : outcome Reduced :=
  match o with
  | Returned r =>
      Returned (mkReduced (final_table r) (column_stats r) (counts r)
                          (msgs ++ output r))
  | Raised e out => Raised e (msgs ++ out)%list
  | OutOfFuel => OutOfFuel
  end.

(** What the reducer takes from matplotlib. *)
Class Matplotlib : Type := {
  (** [plt.get_backend()] *)
  get_backend : string;
  (** drawing and showing one of the figures of lines 105-131 for the frame
      bound to [df]; [false] when pandas or matplotlib raises on the way *)
  show : figure → DataFrame → bool
}.

Definition figures : list figure :=
  [NullsPerColumn; NullsPerRow; UniquePerColumn].

Section reducer.
Context {plt : Matplotlib}.

(** The figures in turn, up to the first that raises. *)
Fixpoint draw (fs : list figure) (df : DataFrame) : list message * option figure :=
  match fs with
  | [] => ([], None)
  | f :: fs' =>
      if show f df
      then (ShowFigure f :: (draw fs' df).1, (draw fs' df).2)
      else ([], Some f)
  end.

(** Lines 99-132: what is printed, and the figure that raised, if one did. *)
Definition final_display (verbose : bool) (df : DataFrame)
    (st : list ColumnStat) (fc : FeatureCounts)
    : list message * option figure :=
  if verbose then
    let tables := [ShowStatistics st; ShowFeatureCounts fc] in
    if bool_decide (get_backend = "agg")
    then ((tables ++ [AggWarning; FinalShape (nrows df) (ncols df)])%list,
          None)
    else
      match draw figures df with
      | (figs, None) =>
          ((tables ++ figs ++ [FinalShape (nrows df) (ncols df)])%list, None)
      | (figs, Some f) => ((tables ++ figs)%list, Some f)
      end
  else ([], None).

Fixpoint set_index_remove_null_columns (fuel : nat) (df : DataFrame)
    (verbose : bool) : outcome Reduced :=
  match fuel with
  | 0 => OutOfFuel
  | S fuel' =>
      let p := reduce_pass df in
      match act p with
      | Promote c =>
          let df' := set_index c (working p) in
          if bool_decide (c ∈ column_labels df')
          then Raised (AssertionError c) (printed p)
          else and_then (printed p)
                 (set_index_remove_null_columns fuel' df' verbose)
      | Prune cs =>
          and_then (printed p)
            (set_index_remove_null_columns fuel'
               (drop_columns cs (working p)) verbose)
      | GroupbyRaises => Raised TypeError (printed p)
      | Finish fc =>
          let df := working p in
          match final_display verbose df (statistics p) fc with
          | (out, None) =>
              Returned (mkReduced df (statistics p) fc (printed p ++ out)%list)
          | (out, Some f) => Raised (PlotError f) (printed p ++ out)%list
          end
      end
  end.

(** One more pass than there are columns is always enough (lemma
    [reducer_halts] below). *)
Definition reduce (df : DataFrame) (verbose : bool) : outcome Reduced :=
  set_index_remove_null_columns (S (ncols df)) df verbose.

End reducer.


(** ** Sample tables *)

Definition ints (l : list Z) : list cell := (λ z, Some (VInt z)) <$> l.


(** A: distinct integers, B: all null, C: one repeated value. *)
Definition table_ABC : DataFrame :=
  mkDataFrame None (range_index 3)
    [ mkColumn "A" "int64" (ints [10; 20; 30]%Z);
      mkColumn "B" "float64" [None; None; None];
      mkColumn "C" "int64" (ints [7; 7; 7]%Z) ].


(** Two fully-unique integer columns over four rows. *)
Definition table_XY : DataFrame :=
  mkDataFrame None (range_index 4)
    [ mkColumn "X" "int64" (ints [1; 2; 3; 4]%Z);
      mkColumn "Y" "int64" (ints [5; 6; 7; 8]%Z) ].

(** Two integer columns and no row at all. *)
Definition table_empty_XY : DataFrame :=
  mkDataFrame None []
    [ mkColumn "X" "int64" []; mkColumn "Y" "int64" [] ].

(** A float column with one null in five rows beside a half-null column. *)
Definition table_sparse : DataFrame :=
  mkDataFrame None (range_index 5)
    [ mkColumn "mass" "float64"
        [Some (VFloat 3 0); None; Some (VFloat 5 0); Some (VFloat 3 0);
         Some (VFloat 7 1)];
      mkColumn "name" "object"
        [Some (VStr "a"); Some (VStr "b"); Some (VStr "a"); Some (VStr "c");
         Some (VStr "b")];
      mkColumn "note" "object"
        [None; None; Some (VStr "x"); None; Some (VStr "y")] ].

(** A planet table: a name column that identifies the rows, and a float
    column with a repeated value. *)
Definition table_planets : DataFrame :=
  mkDataFrame None (range_index 4)
    [ mkColumn "pl_name" "object"
        [Some (VStr "a"); Some (VStr "b"); Some (VStr "c"); Some (VStr "d")];
      mkColumn "mass" "float64"
        [Some (VFloat 3 0); Some (VFloat 5 0); Some (VFloat 3 0);
         Some (VFloat 7 0)] ].

(** A name column over three rows, the middle row empty. *)
Definition table_gap : DataFrame :=
  mkDataFrame None (range_index 3)
    [ mkColumn "name" "object" [Some (VStr "a"); None; Some (VStr "c")] ].

(** Stand-ins for matplotlib: the non-interactive backend, and an interactive
    one on which drawing for a frame without columns raises. *)
Definition headless : Matplotlib :=
  {| get_backend := "agg"; show := λ _ _, true |}.

Definition interactive : Matplotlib :=
  {| get_backend := "TkAgg"; show := λ _ df, negb (ncols df =? 0) |}.

(** ** Frames as shared objects

    Python hands the frame to the reducer by reference.  [Store] keeps the
    frames in a heap so that the caller's object and the objects the reducer
    works on can be told apart: line 38 binds the local name [df] to a newly
    allocated frame, and lines 66 and 79 update that frame in place before it
    is passed to the recursive call.  The call is the quiet one
    ([verbose=False]). *)
Module Store.

Definition ref : Type := nat.

Abbreviation heap := (gmap ref DataFrame).

Inductive result : Type :=
  | Done (stats : list ColumnStat) (fc : FeatureCounts)   (* line 133 *)
  | Failed (e : error)                                    (* lines 67, 76 *)
  | Stuck.   (* no fuel left, or a reference to no object *)

Fixpoint set_index_remove_null_columns (fuel : nat) (df : ref) (h : heap)
    : result * heap :=
  match fuel, h !! df with
  | S fuel', Some d =>
      let p := reduce_pass d in
      let df' := fresh (dom h) in
      let h1 := <[df' := working p]> h in
      match act p with
      | Promote c =>
          let h2 := <[df' := set_index c (working p)]> h1 in
          if bool_decide (c ∈ column_labels (set_index c (working p)))
          then (Failed (AssertionError c), h2)
          else set_index_remove_null_columns fuel' df' h2
      | Prune cs =>
          set_index_remove_null_columns fuel' df'
            (<[df' := drop_columns cs (working p)]> h1)
      | GroupbyRaises => (Failed TypeError, h1)
      | Finish fc => (Done (statistics p) fc, h1)
      end
  | _, _ => (Stuck, h)
  end.

End Store.

(** ** The loader (lines 8-32) *)

(** [s.endswith(suffix)]: some tail of [s] is [suffix]. *)
Fixpoint ends_with (suffix s : string) : bool :=
  String.eqb suffix s ||
  match s with
  | EmptyString => false
  | String _ s' => ends_with suffix s'
  end.

(** One step of POSIX [os.path.join]: an absolute component replaces what
    came before; otherwise it is appended, after a separator unless the path
    so far is empty or already ends with one. *)
Definition join_component (path b : string) : string :=
  if String.prefix "/" b then b
  else if bool_decide (path = "") || ends_with "/" path then path ++ b
  else path ++ "/" ++ b.

Definition os_path_join (a : string) (ps : list string) : string :=
  foldl join_component a ps.

(** Lines 9-10. *)
Definition cache_file (project_path name : string) : string :=
  let filename := if negb (ends_with ".csv" name) then name ++ ".csv" else name in
  os_path_join project_path ["datasets"; filename].

(** What the loader takes from astroquery, astropy and pandas. *)
Class Libraries : Type := {
  AstroTable : Type;
  Content : Type;
  (** [NasaExoplanetArchive.query_criteria(table='pscomppars')]: the answer
      to the k-th query made so far, [None] when the query raises *)
  query_criteria : nat → option AstroTable;
  colnames : AstroTable → list string;
  (** [table[col] = table[col].data] *)
  drop_unit : string → AstroTable → AstroTable;
  (** what [table.write(filename, format='csv', overwrite=True)] puts in the
      file *)
  write_csv : AstroTable → Content;
  (** [pd.read_csv(filename)], [None] when the file does not parse *)
  read_csv : Content → option DataFrame
}.

Inductive event : Type :=
  | Downloading                                   (* line 12 *)
  | ProcessedColumn (col : string)                (* line 23 *)
  | LoadedShape (name : string) (rows cols : nat) (* line 28 *)
  | DisplayHead (n : nat) (name : string).        (* line 30 *)

(** The file system, the number of queries sent to the archive so far, and
    the console.  A file is there when it has content; [writable] tells for
    a path whether a file can be created or replaced there (its directory
    exists and can be written to): the loader creates no directory, so this
    does not change. *)
Record World `{Libraries} : Type := mkWorld {
  files : gmap string Content;
  writable : string → bool;
  fetches : nat;
  console : list event
}.

Inductive loaded : Type :=
  | Loaded (df : DataFrame)
  | QueryFailed      (* the query of line 16 raised *)
  | WriteFailed      (* [table.write] of line 24 raised *)
  | ReadFailed.      (* [pd.read_csv] of line 26 raised *)

Definition dex_columns : list string :=
  ["st_lum"; "st_lumerr1"; "st_lumerr2"; "st_logg"; "st_loggerr1";
   "st_loggerr2"].

Section loader.
Context `{Libraries}.

(** Lines 19-23. *)
Definition strip_dex (table : AstroTable) : AstroTable * list event :=
  foldl (λ (acc : AstroTable * list event) col,
           if bool_decide (col ∈ colnames acc.1)
           then (drop_unit col acc.1, (acc.2 ++ [ProcessedColumn col])%list)
           else acc)
        (table, []) dex_columns.

(** Lines 26-32. *)
Definition read_cache (filename name : string) (display_head : option nat)
    (w : World) : loaded * World :=
  match files w !! filename ≫= read_csv with
  | None => (ReadFailed, w)
  | Some df =>
      (Loaded df,
       {| files := files w;
          writable := writable w;
          fetches := fetches w;
          console :=
            (console w ++ [LoadedShape name (nrows df) (ncols df)] ++
             match display_head with
             | Some n => [DisplayHead n name]
             | None => []
             end)%list |})
  end.

Definition load_exoplanet_data (project_path name : string)
    (display_head : option nat) (w : World) : loaded * World :=
  let filename := cache_file project_path name in
  match files w !! filename with
  | Some _ => read_cache filename name display_head w
  | None =>
      match query_criteria (fetches w) with
      | None =>
          (QueryFailed,
           {| files := files w;
              writable := writable w;
              fetches := S (fetches w);
              console := (console w ++ [Downloading])%list |})
      | Some table =>
          let '(table', out) := strip_dex table in
          if writable w filename
          then
            read_cache filename name display_head
              {| files := <[filename := write_csv table']> (files w);
                 writable := writable w;
                 fetches := S (fetches w);
                 console := (console w ++ [Downloading] ++ out)%list |}
          else
            (WriteFailed,
             {| files := files w;
                writable := writable w;
                fetches := S (fetches w);
                console := (console w ++ [Downloading] ++ out)%list |})
      end
  end.

End loader.

(** Stand-ins for the libraries.  The archive always answers with the
    two-column sample table, and a file holds the frame itself; in
    [flaky_libraries] the first query raises; in [unreadable_libraries] the
    reader parses nothing. *)
Definition sample_libraries : Libraries :=
  {| AstroTable := DataFrame;
     Content := DataFrame;
     query_criteria := λ _, Some table_XY;
     colnames := column_labels;
     drop_unit := λ _ t, t;
     write_csv := λ t, t;
     read_csv := Some |}.

Definition flaky_libraries : Libraries :=
  {| AstroTable := DataFrame;
     Content := DataFrame;
     query_criteria := λ k, if bool_decide (k = 0) then None else Some table_XY;
     colnames := column_labels;
     drop_unit := λ _ t, t;
     write_csv := λ t, t;
     read_csv := Some |}.

Definition unreadable_libraries : Libraries :=
  {| AstroTable := DataFrame;
     Content := DataFrame;
     query_criteria := λ _, Some table_XY;
     colnames := column_labels;
     drop_unit := λ _ t, t;
     write_csv := λ t, t;
     read_csv := λ _, None |}.

(** ** Reading the console of a run *)

(** The columns a run reports as promoted (line 65) and as dropped
    (lines 76-78), in the order of the reports. *)
Definition promotions (out : list message) : list string :=
  omap (λ m, match m with SettingIndex c => Some c | _ => None end) out.

Definition dropped (out : list message) : list string :=
  out ≫= λ m, match m with DroppingColumns cs => cs | _ => [] end.

(** Label and dtype of every column, in column order ([df.dtypes]). *)
Definition schema (df : DataFrame) : list (string * string) :=
  (λ k, (label k, dtype k)) <$> columns df.

(** The progress reports of lines 63-78, as opposed to the final display of
    lines 100-132. *)
Definition is_progress (m : message) : bool :=
  match m with
  | NoSingleColumn | SettingIndex _ | MultipleColumns _ | DroppingHeader
  | DroppingColumns _ => true
  | ShowStatistics _ | ShowFeatureCounts _ | AggWarning | ShowFigure _
  | FinalShape _ _ => false
  end.
(** * Properties *)

(** ** Mask selection *)

Section select_lemmas.
Context {A : Type}.
Implicit Types (l : list A) (mask : list bool).

Lemma select_nil_r mask : select mask (@nil A) = [].
Proof. by destruct mask. Qed.

Lemma length_select_le mask l : length (select mask l) ≤ length l.
Proof.
  revert l; induction mask as [|b mask IH]; intros [|x l]; simpl; try lia.
  destruct b; simpl; specialize (IH l); lia.
Qed.

Lemma select_all_true n l : length l ≤ n → select (replicate n true) l = l.
Proof.
  revert l; induction n as [|n IH]; intros [|x l]; simpl; try done; try lia.
  intros Hn. f_equal. apply IH. lia.
Qed.

Lemma select_all_false n l : select (replicate n false) l = [].
Proof. revert l; induction n as [|n IH]; intros [|x l]; simpl; auto. Qed.

Lemma select_fmap {B} (f : A → B) mask l :
  select mask (f <$> l) = f <$> select mask l.
Proof.
  revert l; induction mask as [|b mask IH]; intros [|x l]; simpl; try done.
  destruct b; simpl; by rewrite IH.
Qed.

Lemma length_select mask l :
  length mask = length l →
  length (select mask l) = length (filter (λ b, b = true) mask).
Proof.
  revert l; induction mask as [|b mask IH]; intros [|x l]; simpl; try done.
  intros [= Hlen]. destruct b.
  - rewrite filter_cons_True by done. simpl. by rewrite IH.
  - rewrite filter_cons_False by done. by apply IH.
Qed.
End select_lemmas.

Lemma select_zip_with (f : bool → bool → bool) mask (a b : list bool) :
  select mask (zip_with f a b) = zip_with f (select mask a) (select mask b).
Proof.
  revert a b; induction mask as [|m mask IH]; intros [|x a] [|y b]; simpl;
    try done.
  - destruct m; simpl; rewrite ?select_nil_r; try done.
    by destruct (select mask a).
  - destruct m; simpl; by rewrite IH.
Qed.

Lemma select_replicate mask n (b : bool) :
  length mask = n →
  select mask (replicate n b)
  = replicate (length (filter (λ x, x = true) mask)) b.
Proof.
  intros <-. induction mask as [|m mask IH]; simpl; [done|].
  destruct m.
  - rewrite filter_cons_True by done. simpl. by rewrite IH.
  - rewrite filter_cons_False by done. apply IH.
Qed.

(** Selecting the rows a mask rejects leaves only rejected flags. *)
Lemma select_negb_self (m : list bool) :
  select (negb <$> m) m
  = replicate (length (filter (λ x, x = true) (negb <$> m))) false.
Proof.
  induction m as [|b m IH]; [done|]. rewrite fmap_cons.
  destruct b; cbn [negb select].
  - rewrite filter_cons_False by done. apply IH.
  - rewrite filter_cons_True by done. cbn [length replicate]. by rewrite IH.
Qed.

(** ** Dropping the all-null rows *)

Lemma null_rows_unfold df :
  null_rows df
  = foldr (λ c acc, zip_with andb (is_null <$> cells c) acc)
          (replicate (nrows df) true) (columns df).
Proof. done. Qed.

Lemma length_row_mask n (cols : list Column) :
  Forall (λ c, length (cells c) = n) cols →
  length (foldr (λ c acc, zip_with andb (is_null <$> cells c) acc)
                (replicate n true) cols) = n.
Proof.
  induction 1 as [|c cols Hc _ IH]; simpl.
  - apply length_replicate.
  - rewrite length_zip_with, length_fmap, IH, Hc. lia.
Qed.

Lemma length_null_rows df : rectangular df → length (null_rows df) = nrows df.
Proof. apply length_row_mask. Qed.

Lemma row_mask_select keep n (cols : list Column) :
  length keep = n →
  foldr (λ c acc, zip_with andb (is_null <$> cells c) acc)
        (replicate (kept_rows keep) true) (select_cells keep <$> cols)
  = select keep
      (foldr (λ c acc, zip_with andb (is_null <$> cells c) acc)
             (replicate n true) cols).
Proof.
  intros Hlen. induction cols as [|c cols IH].
  - simpl. by rewrite select_replicate.
  - rewrite fmap_cons. cbn [foldr]. rewrite IH. cbn [select_cells cells].
    by rewrite select_zip_with, select_fmap.
Qed.

Lemma nrows_drop_null_rows df :
  rectangular df →
  nrows (drop_null_rows df) = kept_rows (negb <$> null_rows df).
Proof.
  intros Hr. unfold nrows at 1. simpl. apply length_select.
  rewrite length_fmap. by apply length_null_rows.
Qed.

Lemma drop_null_rows_rectangular df :
  rectangular df → rectangular (drop_null_rows df).
Proof.
  intros Hr. unfold rectangular. rewrite nrows_drop_null_rows by done.
  simpl. apply Forall_fmap. eapply Forall_impl; [exact Hr|].
  intros c Hc. simpl. apply length_select.
  rewrite length_fmap, length_null_rows by done. by rewrite Hc.
Qed.

(** After the filter no row is null across every column. *)
Lemma null_rows_drop_null_rows df :
  rectangular df →
  null_rows (drop_null_rows df) = replicate (nrows (drop_null_rows df)) false.
Proof.
  intros Hr. rewrite null_rows_unfold, nrows_drop_null_rows by done.
  change (columns (drop_null_rows df))
    with (select_cells (negb <$> null_rows df) <$> columns df).
  rewrite (row_mask_select _ (nrows df)).
  - apply select_negb_self.
  - rewrite length_fmap. by apply length_null_rows.
Qed.

Lemma drop_null_rows_idemp df :
  rectangular df → drop_null_rows (drop_null_rows df) = drop_null_rows df.
Proof.
  intros Hr. pose proof (drop_null_rows_rectangular df Hr) as Hr'.
  unfold drop_null_rows at 1. rewrite null_rows_drop_null_rows by done.
  rewrite fmap_replicate. simpl negb.
  destruct (drop_null_rows df) as [nm idx cols] eqn:E. simpl in *.
  f_equal.
  - by apply select_all_true.
  - trans (id <$> cols); [|apply list_fmap_id]. apply Forall_fmap_ext.
    eapply Forall_impl; [exact Hr'|]. intros [l d cs] Hc.
    unfold select_cells. simpl in *.
    f_equal. apply select_all_true. by rewrite Hc.
Qed.

Lemma columns_drop_null_rows df :
  label <$> columns (drop_null_rows df) = label <$> columns df.
Proof. simpl. rewrite <- list_fmap_compose. done. Qed.

Lemma ncols_drop_null_rows df : ncols (drop_null_rows df) = ncols df.
Proof. unfold ncols. simpl. by rewrite length_fmap. Qed.

Lemma index_name_drop_null_rows df :
  index_name (drop_null_rows df) = index_name df.
Proof. done. Qed.


(** ** Shape of a pass *)

Ltac pass_cases :=
  unfold reduce_pass, prune_or_finish;
  repeat match goal with
  | |- context [if has_default_index ?d then _ else _] =>
      destruct (has_default_index d) eqn:?
  | |- context [match can_be_index ?n ?s with _ => _ end] =>
      destruct (can_be_index n s) as [|? [|? ?]] eqn:?
  | |- context [bool_decide (?x = [])] => destruct (bool_decide_reflect (x = []))
  | |- context [if groupby_sorts ?k then _ else _] =>
      destruct (groupby_sorts k) eqn:?
  end; simpl.

Lemma pass_working df : working (reduce_pass df) = drop_null_rows df.
Proof. by pass_cases. Qed.

Lemma pass_statistics df :
  statistics (reduce_pass df) = columns_statistics (drop_null_rows df).
Proof. by pass_cases. Qed.

(** The index is set exactly when the default index is still in place and one
    single column qualifies. *)
Lemma pass_promote df c :
  act (reduce_pass df) = Promote c ↔
  has_default_index (drop_null_rows df) = true ∧
  can_be_index (nrows (drop_null_rows df))
               (columns_statistics (drop_null_rows df)) = [c].
Proof.
  pass_cases; split; try done; try (by intros [_ [=]]); try (by intros [[=] _]).
  - by intros [= ->].
  - by intros [_ [= ->]].
Qed.

(** Columns are dropped only when some column is high in nulls and the dtypes
    of these columns sort, and then it is exactly those columns. *)
Lemma pass_prune df cs :
  act (reduce_pass df) = Prune cs →
  cs = high_null_columns (nrows (drop_null_rows df))
                         (columns_statistics (drop_null_rows df)) ∧ cs ≠ [] ∧
  groupby_sorts
    (data_type <$> filter (λ s, is_high_null (nrows (drop_null_rows df)) s)
                     (columns_statistics (drop_null_rows df))) = true.
Proof. pass_cases; try done; by intros [= <-]. Qed.


Lemma pass_finish df fc :
  act (reduce_pass df) = Finish fc →
  high_null_columns (nrows (drop_null_rows df))
                    (columns_statistics (drop_null_rows df)) = [] ∧
  fc = feature_counts (drop_null_rows df)
                      (columns_statistics (drop_null_rows df)).
Proof. pass_cases; try done; by intros [= <-]. Qed.



(** ** Labels named by the statistics *)

Lemma stat_labels df : stat_label <$> columns_statistics df = column_labels df.
Proof.
  unfold columns_statistics, column_labels. rewrite <- list_fmap_compose.
  by apply list_fmap_ext.
Qed.

Lemma can_be_index_labels df c :
  c ∈ can_be_index (nrows df) (columns_statistics df) → c ∈ column_labels df.
Proof.
  unfold can_be_index. intros (s & -> & Hs%list_elem_of_filter)%list_elem_of_fmap.
  rewrite <- stat_labels. apply list_elem_of_fmap_2. tauto.
Qed.

Lemma high_null_labels df c :
  c ∈ high_null_columns (nrows df) (columns_statistics df) →
  c ∈ column_labels df.
Proof.
  unfold high_null_columns.
  intros (s & -> & Hs%list_elem_of_filter)%list_elem_of_fmap.
  rewrite <- stat_labels. apply list_elem_of_fmap_2. tauto.
Qed.

(** ** Column count across a restart *)

Lemma set_index_removes c df : c ∉ column_labels (set_index c df).
Proof.
  unfold column_labels. simpl.
  intros (k & -> & Hk%list_elem_of_filter)%list_elem_of_fmap. tauto.
Qed.

Lemma ncols_set_index_lt c df :
  c ∈ column_labels df → ncols (set_index c df) < ncols df.
Proof.
  intros (k & -> & Hk)%list_elem_of_fmap. unfold ncols. simpl.
  eapply length_filter_lt; [exact Hk|]. tauto.
Qed.

Lemma ncols_drop_columns_lt c cs df :
  c ∈ cs → c ∈ column_labels df → ncols (drop_columns cs df) < ncols df.
Proof.
  intros Hc (k & -> & Hk)%list_elem_of_fmap. unfold ncols. simpl.
  eapply length_filter_lt; [exact Hk|]. tauto.
Qed.

Lemma length_filter_ne_NoDup (c : string) (cols : list Column) :
  NoDup (label <$> cols) → c ∈ label <$> cols →
  S (length (filter (λ k, label k ≠ c) cols)) = length cols.
Proof.
  induction cols as [|k cols IH]; simpl.
  - by intros _ ?%elem_of_nil.
  - intros [Hk Hnd]%NoDup_cons Hin. destruct (decide (label k = c)) as [<-|Hne].
    + rewrite filter_cons_False by tauto. f_equal.
      clear IH Hin Hnd. induction cols as [|k' cols IH]; [done|].
      rewrite fmap_cons in Hk. apply not_elem_of_cons in Hk as [Hne Hk].
      rewrite filter_cons_True by done. simpl. f_equal. by apply IH.
    + rewrite filter_cons_True by done. simpl. f_equal. apply IH; [done|].
      apply elem_of_cons in Hin as [Heq|Hin]; [by destruct Hne|done].
Qed.

Lemma ncols_set_index_NoDup c df :
  NoDup (column_labels df) → c ∈ column_labels df →
  S (ncols (set_index c df)) = ncols df.
Proof. apply length_filter_ne_NoDup. Qed.

Lemma restart_decreases df df' :
  restart (reduce_pass df) = Some df' → ncols df' < ncols df.
Proof.
  unfold restart. destruct (act (reduce_pass df)) as [c|cs| |fc] eqn:Hact;
    intros [= <-]; rewrite pass_working, <- (ncols_drop_null_rows df).
  - apply pass_promote in Hact as [_ Hc]. apply ncols_set_index_lt.
    apply can_be_index_labels. rewrite Hc. set_solver.
  - apply pass_prune in Hact as (-> & Hne & _).
    destruct (high_null_columns _ _) as [|c cs] eqn:Hcs; [done|].
    apply (ncols_drop_columns_lt c); [set_solver|].
    apply high_null_labels. rewrite Hcs. set_solver.
Qed.

(** ** The final display *)

Lemma final_display_quiet {plt : Matplotlib} df st fc :
  final_display false df st fc = ([], None).
Proof. done. Qed.

Lemma draw_events {plt : Matplotlib} fs df :
  ∃ shown, (draw fs df).1 = ShowFigure <$> shown ∧
    match (draw fs df).2 with
    | None => shown = fs
    | Some f => show f df = false ∧ f ∈ fs
    end.
Proof.
  induction fs as [|f fs (shown & Hout & He)]; simpl.
  - by exists [].
  - destruct (show f df) eqn:Hshow; simpl.
    + exists (f :: shown). rewrite Hout. split; [done|].
      destruct (draw fs df).2; [|by subst].
      split; [tauto|]. right. tauto.
    + exists []. split; [done|]. split; [done|]. by left.
Qed.

(** Lines 99-132 print the two tables, then the warning or the figures, then
    the shape; a figure that raises ends the display there. *)
Lemma final_display_cases {plt : Matplotlib} verbose df st fc :
  (verbose = false ∧ final_display verbose df st fc = ([], None)) ∨
  (verbose = true ∧ get_backend = "agg" ∧
   final_display verbose df st fc
   = ([ShowStatistics st; ShowFeatureCounts fc; AggWarning;
       FinalShape (nrows df) (ncols df)], None)) ∨
  (verbose = true ∧ get_backend ≠ "agg" ∧
   final_display verbose df st fc
   = (([ShowStatistics st; ShowFeatureCounts fc] ++
       (ShowFigure <$> figures) ++ [FinalShape (nrows df) (ncols df)])%list,
      None)) ∨
  (verbose = true ∧ get_backend ≠ "agg" ∧
   ∃ shown f, show f df = false ∧
     final_display verbose df st fc
     = (([ShowStatistics st; ShowFeatureCounts fc] ++
         (ShowFigure <$> shown))%list, Some f)).
Proof.
  unfold final_display. destruct verbose; [|by left]. right.
  case_bool_decide; [by left|]. right.
  destruct (draw_events figures df) as (shown & Hout & He).
  destruct (draw figures df) as [figs [f|]]; simpl in *; subst figs.
  - right. split_and!; try done. exists shown, f. by destruct He.
  - left. by subst shown.
Qed.

Lemma final_display_events {plt : Matplotlib} verbose df st fc :
  Forall (λ m, is_progress m = false) (final_display verbose df st fc).1 ∧
  promotions (final_display verbose df st fc).1 = [] ∧
  dropped (final_display verbose df st fc).1 = [].
Proof.
  assert (∀ shown : list figure,
            Forall (λ m, is_progress m = false) (ShowFigure <$> shown) ∧
            promotions (ShowFigure <$> shown) = [] ∧
            dropped (ShowFigure <$> shown) = []) as Hfigs.
  { induction shown as [|f shown (IH1 & IH2 & IH3)]; [done|].
    split_and!; [by constructor|done|done]. }
  destruct (final_display_cases verbose df st fc)
    as [[_ ->]|[(_ & _ & ->)|[(_ & _ & ->)|(_ & _ & shown & f & _ & ->)]]];
    cbn [fst].
  - done.
  - split_and!; [by repeat constructor|done|done].
  - destruct (Hfigs figures) as (H1 & H2 & H3).
    split_and!; [by repeat constructor|done|done].
  - destruct (Hfigs shown) as (H1 & H2 & H3).
    split_and!; [by repeat constructor| |].
    + unfold promotions in *. by rewrite omap_app, H2.
    + unfold dropped in *. by rewrite bind_app, H3.
Qed.

(** ** Running the reducer *)

Lemma and_then_returned msgs o r :
  and_then msgs o = Returned r →
  ∃ r', o = Returned r' ∧
        r = mkReduced (final_table r') (column_stats r') (counts r')
                      (msgs ++ output r').
Proof. destruct o; simpl; [|done..]. intros [= <-]. by eexists. Qed.


(** The assertion of line 67 never fails. *)
Lemma assertion_holds c df :
  bool_decide (c ∈ column_labels (set_index c df)) = false.
Proof. apply bool_decide_eq_false, set_index_removes. Qed.

Lemma reducer_step {plt : Matplotlib} fuel df verbose :
  set_index_remove_null_columns (S fuel) df verbose
  = match restart (reduce_pass df) with
    | Some df' =>
        and_then (printed (reduce_pass df))
                 (set_index_remove_null_columns fuel df' verbose)
    | None =>
        match act (reduce_pass df) with
        | Finish fc =>
            match final_display verbose (drop_null_rows df)
                    (columns_statistics (drop_null_rows df)) fc with
            | (out, None) =>
                Returned
                  (mkReduced (drop_null_rows df)
                     (columns_statistics (drop_null_rows df)) fc
                     (printed (reduce_pass df) ++ out)%list)
            | (out, Some f) =>
                Raised (PlotError f) (printed (reduce_pass df) ++ out)%list
            end
        | GroupbyRaises => Raised TypeError (printed (reduce_pass df))
        | _ => OutOfFuel
        end
    end.
Proof.
  simpl. unfold restart. rewrite pass_working, pass_statistics.
  destruct (act (reduce_pass df)); try done.
  by rewrite assertion_holds.
Qed.

(** A pass that finishes ends the run: it returns, or a figure raises. *)
Lemma reducer_finish {plt : Matplotlib} fuel d verbose fc :
  act (reduce_pass d) = Finish fc →
  set_index_remove_null_columns (S fuel) d verbose
  = match final_display verbose (drop_null_rows d)
            (columns_statistics (drop_null_rows d)) fc with
    | (out, None) =>
        Returned
          (mkReduced (drop_null_rows d)
             (columns_statistics (drop_null_rows d)) fc
             (printed (reduce_pass d) ++ out)%list)
    | (out, Some f) =>
        Raised (PlotError f) (printed (reduce_pass d) ++ out)%list
    end.
Proof. intros Hact. rewrite reducer_step. unfold restart. by rewrite Hact. Qed.

(** With one unit of fuel per column and one to spare the run halts: it
    returns, or raises in the [groupby] of line 76 or in the plotting code;
    the latter only in a verbose run on a backend other than agg. *)
Lemma reducer_halts {plt : Matplotlib} fuel df verbose :
  ncols df < fuel →
  match set_index_remove_null_columns fuel df verbose with
  | Returned _ => True
  | Raised e _ =>
      e = TypeError ∨
      ∃ f, e = PlotError f ∧ verbose = true ∧ get_backend ≠ "agg"
  | OutOfFuel => False
  end.
Proof.
  revert df. induction fuel as [|fuel IH]; intros df Hlt; [lia|].
  rewrite reducer_step.
  destruct (restart (reduce_pass df)) as [df'|] eqn:Hre.
  - apply restart_decreases in Hre. specialize (IH df' ltac:(lia)).
    by destruct (set_index_remove_null_columns fuel df' verbose).
  - unfold restart in Hre.
    destruct (act (reduce_pass df)) as [c|cs| |fc]; try done; [by left|].
    destruct (final_display_cases verbose (drop_null_rows df)
                (columns_statistics (drop_null_rows df)) fc)
      as [[_ ->]|[(_ & _ & ->)|[(_ & _ & ->)|(Hv & Hb & shown & f & _ & ->)]]];
      try done.
    right. by exists f.
Qed.

Lemma reducer_fuel {plt : Matplotlib} f1 f2 df verbose :
  ncols df < f1 → ncols df < f2 →
  set_index_remove_null_columns f1 df verbose
  = set_index_remove_null_columns f2 df verbose.
Proof.
  revert f2 df. induction f1 as [|f1 IH]; intros [|f2] df H1 H2; try lia.
  rewrite !reducer_step.
  destruct (restart (reduce_pass df)) as [df'|] eqn:Hre; [|done].
  apply restart_decreases in Hre. f_equal. apply IH; lia.
Qed.

(** ** Rectangular frames stay rectangular *)

Lemma Forall_filter_keep {A} (P Q : A → Prop) `{!∀ x, Decision (Q x)} l :
  Forall P l → Forall P (filter Q l).
Proof.
  rewrite !Forall_forall. intros HP x [_ Hx]%list_elem_of_filter. auto.
Qed.

Lemma nrows_set_index c df :
  rectangular df → c ∈ column_labels df → nrows (set_index c df) = nrows df.
Proof.
  intros Hr (k & -> & Hk)%list_elem_of_fmap. unfold nrows at 1. simpl.
  destruct (list_find _ _) as [[i k']|] eqn:Hfind.
  - apply list_find_Some in Hfind as (Hk' & _ & _).
    apply list_elem_of_lookup_2 in Hk'.
    by apply (proj1 (Forall_forall _ _) Hr).
  - apply list_find_None in Hfind.
    by destruct (proj1 (Forall_forall _ _) Hfind k Hk).
Qed.

Lemma set_index_rectangular c df :
  rectangular df → c ∈ column_labels df → rectangular (set_index c df).
Proof.
  intros Hr Hc. unfold rectangular. rewrite nrows_set_index by done.
  simpl. by apply Forall_filter_keep.
Qed.

Lemma drop_columns_rectangular cs df :
  rectangular df → rectangular (drop_columns cs df).
Proof. intros Hr. unfold rectangular. simpl. by apply Forall_filter_keep. Qed.

Lemma restart_rectangular df df' :
  rectangular df → restart (reduce_pass df) = Some df' → rectangular df'.
Proof.
  intros Hr%drop_null_rows_rectangular. unfold restart.
  destruct (act (reduce_pass df)) as [c|cs| |fc] eqn:Hact; intros [= <-];
    rewrite pass_working.
  - apply set_index_rectangular; [done|].
    apply pass_promote in Hact as [_ Hc].
    apply can_be_index_labels. rewrite Hc. set_solver.
  - by apply drop_columns_rectangular.
Qed.

(** The frame a run ends on is the working frame of a pass that finished. *)
Lemma reducer_final {plt : Matplotlib} fuel df verbose r :
  set_index_remove_null_columns fuel df verbose = Returned r →
  ∃ d, ncols d ≤ ncols df ∧
       (rectangular df → rectangular d) ∧
       final_table r = drop_null_rows d ∧
       column_stats r = columns_statistics (drop_null_rows d) ∧
       act (reduce_pass d) = Finish (counts r) ∧
       (final_display verbose (drop_null_rows d)
          (columns_statistics (drop_null_rows d)) (counts r)).2 = None.
Proof.
  revert df r. induction fuel as [|fuel IH]; intros df r; [done|].
  rewrite reducer_step.
  destruct (restart (reduce_pass df)) as [df'|] eqn:Hre.
  - intros (r' & Hrun & ->)%and_then_returned. simpl.
    destruct (IH _ _ Hrun) as (d & Hle & Hrect & Hd).
    exists d. split_and!; try tauto.
    + apply restart_decreases in Hre. lia.
    + intros Hr. eapply Hrect, restart_rectangular; eauto.
  - destruct (act (reduce_pass df)) as [c|cs| |fc] eqn:Hact; try done.
    destruct (final_display _ _ _ _) as [out [f|]] eqn:Hshow; [done|].
    intros [= <-]. simpl. exists df. by rewrite Hshow.
Qed.

(** ** Induction over the passes of a run that returns *)

Lemma reducer_ind {plt : Matplotlib} (verbose : bool)
    (P : DataFrame → Reduced → Prop) :
  (∀ d fc out,
     act (reduce_pass d) = Finish fc →
     final_display verbose (drop_null_rows d)
       (columns_statistics (drop_null_rows d)) fc = (out, None) →
     P d (mkReduced (drop_null_rows d)
            (columns_statistics (drop_null_rows d)) fc
            (printed (reduce_pass d) ++ out)%list)) →
  (∀ d d' r',
     restart (reduce_pass d) = Some d' → P d' r' →
     P d (mkReduced (final_table r') (column_stats r') (counts r')
            (printed (reduce_pass d) ++ output r'))) →
  ∀ fuel df r,
    set_index_remove_null_columns fuel df verbose = Returned r → P df r.
Proof.
  intros Hbase Hstep fuel. induction fuel as [|fuel IH]; intros df r; [done|].
  rewrite reducer_step.
  destruct (restart (reduce_pass df)) as [d'|] eqn:Hre.
  - intros (r' & Hrun & ->)%and_then_returned. eauto.
  - destruct (act (reduce_pass df)) as [c|cs| |fc] eqn:Hact; try done.
    destruct (final_display _ _ _ _) as [out [f|]] eqn:Hshow; [done|].
    intros [= <-]. by apply Hbase.
Qed.

(** What a restart hands over, in terms of the row-filtered frame. *)
Lemma restart_cases d d' :
  restart (reduce_pass d) = Some d' →
  (∃ c, act (reduce_pass d) = Promote c ∧
        d' = set_index c (drop_null_rows d) ∧
        printed (reduce_pass d) = [SettingIndex c]) ∨
  (∃ cs (msgs : list message), act (reduce_pass d) = Prune cs ∧
        d' = drop_columns cs (drop_null_rows d) ∧
        printed (reduce_pass d)
        = (msgs ++ [DroppingHeader; DroppingColumns cs])%list ∧
        (msgs = [] ∨ msgs = [NoSingleColumn] ∨
         ∃ cands, msgs = [MultipleColumns cands])).
Proof.
  unfold restart. rewrite pass_working.
  unfold reduce_pass, prune_or_finish.
  destruct (has_default_index _);
    [destruct (can_be_index _ _) as [|c [|c' cs']] eqn:Hc|];
    repeat case_bool_decide; try destruct (groupby_sorts _);
    cbn [act printed]; intros [= <-];
    first [ left; by eexists
          | right; eexists _, _; split_and!; [done..|]; eauto ].
Qed.

Lemma finish_printed d fc :
  act (reduce_pass d) = Finish fc →
  printed (reduce_pass d) = [] ∨ printed (reduce_pass d) = [NoSingleColumn] ∨
  ∃ cands, printed (reduce_pass d) = [MultipleColumns cands].
Proof.
  unfold reduce_pass, prune_or_finish.
  destruct (has_default_index _);
    [destruct (can_be_index _ _) as [|c [|c' cs']] eqn:Hc|];
    repeat case_bool_decide; try destruct (groupby_sorts _);
    cbn [act printed]; intros [=]; eauto.
Qed.

(** * The reducer terminates *)

(** C7.  The reducer halts on every table.  A restart follows either an index
    promotion or a column drop and hands over a frame with strictly fewer
    columns (promotion removes the promoted column, exactly one when the
    labels are distinct; a drop removes at least one), so one pass more than
    there are columns always suffices and more fuel changes nothing.  The run
    ends by returning, or with the [TypeError] of line 76 (raised by the pass
    that finds it, before anything is dropped), or, in a verbose run on a
    backend other than agg, with an exception out of the plotting code; the
    assertion of line 67 never fails. *)
Theorem reducer_terminates {plt : Matplotlib} (df : DataFrame)
    (verbose : bool) :
  ((∃ r, reduce df verbose = Returned r) ∨
   (∃ out, reduce df verbose = Raised TypeError out) ∨
   (∃ f out, reduce df verbose = Raised (PlotError f) out ∧
             verbose = true ∧ get_backend ≠ "agg")) ∧
  (∀ fuel, ncols df < fuel →
     set_index_remove_null_columns fuel df verbose = reduce df verbose) ∧
  (∀ df', restart (reduce_pass df) = Some df' →
     ncols df' < ncols df ∧
     ((∃ c, act (reduce_pass df) = Promote c ∧
            df' = set_index c (drop_null_rows df)) ∨
      (∃ cs, act (reduce_pass df) = Prune cs ∧
             df' = drop_columns cs (drop_null_rows df)))) ∧
  (∀ c, act (reduce_pass df) = Promote c →
     c ∈ column_labels df ∧
     (c ∉ column_labels (set_index c (drop_null_rows df))) ∧
     (NoDup (column_labels df) →
      S (ncols (set_index c (drop_null_rows df))) = ncols df)) ∧
  (∀ cs, act (reduce_pass df) = Prune cs →
     ∃ c, c ∈ cs ∧ c ∈ column_labels df ∧
          c ∉ column_labels (drop_columns cs (drop_null_rows df))) ∧
  (act (reduce_pass df) = GroupbyRaises →
     restart (reduce_pass df) = None ∧
     ∀ fuel, set_index_remove_null_columns (S fuel) df verbose
             = Raised TypeError (printed (reduce_pass df))).
Proof.
  split_and!.
  - unfold reduce.
    pose proof (reducer_halts (S (ncols df)) df verbose ltac:(lia)) as Hhalt.
    destruct (set_index_remove_null_columns _ df verbose) as [r|e out|];
      [left; by eexists| |done].
    right. destruct Hhalt as [->|(f & -> & Hv & Hb)]; [left|right]; eauto.
  - intros fuel Hlt. apply reducer_fuel; lia.
  - intros df' Hre. split; [by apply restart_decreases|].
    destruct (restart_cases df df' Hre)
      as [(c & Hact & -> & _)|(cs & msgs & Hact & -> & _)];
      [left|right]; by eexists.
  - intros c [_ Hc]%pass_promote.
    assert (c ∈ column_labels df) as Hin.
    { unfold column_labels. rewrite <- columns_drop_null_rows.
      apply can_be_index_labels. rewrite Hc. set_solver. }
    split_and!; [done|apply set_index_removes|].
    intros Hnd. rewrite <- (ncols_drop_null_rows df).
    apply ncols_set_index_NoDup; unfold column_labels;
      by rewrite columns_drop_null_rows.
  - intros cs (-> & Hne & _)%pass_prune.
    destruct (high_null_columns _ _) as [|c cs] eqn:Hcs; [done|].
    exists c. split_and!; [set_solver| |].
    + unfold column_labels. rewrite <- columns_drop_null_rows.
      apply high_null_labels. rewrite Hcs. set_solver.
    + unfold column_labels. simpl.
      intros (k & -> & Hk%list_elem_of_filter)%list_elem_of_fmap.
      destruct Hk as [Hk _]. apply Hk. set_solver.
  - intros Hact. split; [unfold restart; by rewrite Hact|].
    intros fuel. rewrite reducer_step. unfold restart. by rewrite Hact.
Qed.

(** * Null-column pruning *)

Lemma high_null_elem n st s :
  s ∈ st → is_high_null n s = true → stat_label s ∈ high_null_columns n st.
Proof.
  intros Hs Hh. unfold high_null_columns. apply list_elem_of_fmap_2.
  apply list_elem_of_filter. split; [by rewrite Hh|done].
Qed.

Lemma high_null_none n st s :
  high_null_columns n st = [] → s ∈ st → is_high_null n s = false.
Proof.
  intros Hnil Hs. destruct (is_high_null n s) eqn:Hh; [|done].
  pose proof (high_null_elem _ _ _ Hs Hh) as Hin.
  rewrite Hnil in Hin. by apply elem_of_nil in Hin.
Qed.



Lemma drop_columns_removes cs d l :
  l ∈ cs → l ∉ column_labels (drop_columns cs d).
Proof.
  intros Hl (k & -> & [Hk _]%list_elem_of_filter)%list_elem_of_fmap. done.
Qed.




(** * A frame without columns loses its rows *)

Lemma drop_null_rows_no_columns d :
  columns d = [] → drop_null_rows d = mkDataFrame (index_name d) [] [].
Proof.
  intros Hc. unfold drop_null_rows, null_rows. rewrite Hc. simpl.
  by rewrite fmap_replicate, select_all_false.
Qed.

Lemma reduce_pass_no_columns d :
  columns d = [] →
  working (reduce_pass d) = mkDataFrame (index_name d) [] [] ∧
  statistics (reduce_pass d) = [] ∧
  act (reduce_pass d) = Finish no_features ∧
  printed (reduce_pass d)
  = if bool_decide (index_name d = None) then [NoSingleColumn] else [].
Proof.
  intros Hc. unfold reduce_pass.
  rewrite (drop_null_rows_no_columns d Hc).
  unfold has_default_index. cbn [index_name index].
  by destruct (index_name d).
Qed.

(** C10.  A run that returns never ends on a frame that has rows but no
    columns.  When a pass hands a frame without columns to the restart, that
    restart drops every row (each row is null across all of no columns),
    finds nothing to promote or prune, and returns with a frame of 0 rows and
    0 columns, unless it is verbose and a figure raises when drawn for that
    empty frame. *)
Theorem no_columns_no_rows {plt : Matplotlib} (df : DataFrame)
    (verbose : bool) :
  (∀ r, reduce df verbose = Returned r →
        ncols (final_table r) = 0 → nrows (final_table r) = 0) ∧
  (∀ df', restart (reduce_pass df) = Some df' → ncols df' = 0 →
     null_rows df' = replicate (nrows df') true ∧
     drop_null_rows df' = mkDataFrame (index_name df') [] [] ∧
     act (reduce_pass df') = Finish no_features ∧
     ∀ fuel,
       match set_index_remove_null_columns (S fuel) df' verbose with
       | Returned r =>
           final_table r = mkDataFrame (index_name df') [] [] ∧
           column_stats r = [] ∧ counts r = no_features
       | Raised e out =>
           verbose = true ∧ get_backend ≠ "agg" ∧
           ∃ f, e = PlotError f ∧
                show f (mkDataFrame (index_name df') [] []) = false
       | OutOfFuel => False
       end).
Proof.
  split.
  - unfold reduce. intros r Hrun.
    apply reducer_final in Hrun as (d & _ & _ & -> & _).
    rewrite ncols_drop_null_rows. intros Hc%nil_length_inv.
    by rewrite drop_null_rows_no_columns.
  - intros df' _ Hc%nil_length_inv.
    destruct (reduce_pass_no_columns df' Hc) as (Hw & Hst & Hact & _).
    rewrite pass_working in Hw.
    split_and!; [|done|done|].
    + unfold null_rows. by rewrite Hc.
    + intros fuel. rewrite (reducer_finish _ _ _ _ Hact), Hw.
      destruct (final_display_cases verbose (mkDataFrame (index_name df') [] [])
                  (columns_statistics (mkDataFrame (index_name df') [] []))
                  no_features)
        as [[_ ->]|[(_ & _ & ->)|[(_ & _ & ->)|(Hv & Hb & shown & f & Hf & ->)]]];
        try done.
      split_and!; try done. by exists f.
Qed.

(** * Idempotence *)

Lemma reduce_pass_drop_null_rows d :
  rectangular d → reduce_pass (drop_null_rows d) = reduce_pass d.
Proof. intros Hr. unfold reduce_pass. by rewrite drop_null_rows_idemp. Qed.

(** C4.  The reducer is idempotent: run again on the frame a run ended on when
    it returned, it returns after one pass, leaves that frame as it is and
    returns the same column statistics and feature counts. *)
Theorem reducer_idempotent {plt : Matplotlib} (df : DataFrame)
    (verbose : bool) (r : Reduced)
    (Hrect : rectangular df) (Hrun : reduce df verbose = Returned r) :
  ∃ r', reduce (final_table r) verbose = Returned r' ∧
        final_table r' = final_table r ∧
        returned_value r' = returned_value r ∧
        restart (reduce_pass (final_table r)) = None.
Proof.
  unfold reduce in *.
  apply reducer_final in Hrun as (d & _ & Hd & Hfinal & Hstats & Hfin & Hshow).
  specialize (Hd Hrect).
  assert (act (reduce_pass (final_table r)) = Finish (counts r)) as Hfin'.
  { by rewrite Hfinal, reduce_pass_drop_null_rows. }
  rewrite (reducer_finish _ _ _ _ Hfin').
  rewrite Hfinal, drop_null_rows_idemp by done.
  destruct (final_display _ _ _ _) as [out [f|]]; [done|].
  eexists. split; [done|]. unfold returned_value. cbn.
  rewrite <- Hfinal, Hstats, Hfinal. split_and!; try done.
  unfold restart. by rewrite <- Hfinal, Hfin'.
Qed.

Lemma reducer_idempotent_witness :
  rectangular table_sparse ∧
  ∃ r r', reduce (plt := interactive) table_sparse true = Returned r ∧
          reduce (plt := interactive) (final_table r) true = Returned r' ∧
          final_table r' = final_table r ∧
          returned_value r' = returned_value r.
Proof.
  assert (rectangular table_sparse) as Hrect by (by repeat constructor).
  split; [exact Hrect|].
  destruct (reduce (plt := interactive) table_sparse true) as [r| |] eqn:Hrun;
    [|by vm_compute in Hrun..].
  destruct (reducer_idempotent (plt := interactive) table_sparse true r
              Hrect Hrun) as (r' & Hagain & Hsame & Hret & _).
  by exists r, r'.
Defined.
(** * Feature counts *)

Lemma sum_field_add (f g h : FeatureRow → Z) rows :
  (∀ row, row ∈ rows → (f row = g row + h row)%Z) →
  (sum_field f rows = sum_field g rows + sum_field h rows)%Z.
Proof.
  unfold sum_field. induction rows as [|row rows IH]; intros Hrow; [done|].
  rewrite !fmap_cons. cbn [foldr]. rewrite IH, (Hrow row) by set_solver. lia.
Qed.

Lemma dtype_rows_total a b c row :
  row ∈ dtype_rows a b c →
  (total_per_dtype row
   = without_nulls row + fully_unique row + rest row)%Z.
Proof.
  unfold dtype_rows. by intros (p & -> & _)%list_elem_of_fmap.
Qed.

(** ** Row totals count the columns *)

Lemma sum_Z_permutation (l1 l2 : list Z) :
  l1 ≡ₚ l2 → foldr Z.add 0%Z l1 = foldr Z.add 0%Z l2.
Proof. induction 1; simpl; lia. Qed.

Lemma sum_indicator (ks : list string) x :
  NoDup ks → x ∈ ks →
  foldr Z.add 0%Z ((λ k, if decide (k = x) then 1 else 0)%Z <$> ks) = 1%Z.
Proof.
  induction 1 as [|k ks Hk Hnd IH]; [by intros ?%elem_of_nil|].
  rewrite fmap_cons. cbn [foldr]. intros [->|Hx]%elem_of_cons.
  - rewrite decide_True by done.
    assert (foldr Z.add 0%Z
              ((λ k0, if decide (k0 = k) then 1 else 0)%Z <$> ks) = 0%Z) as ->;
      [|done].
    clear IH Hnd. induction ks as [|k' ks IH]; [done|].
    apply not_elem_of_cons in Hk as [Hne Hk].
    rewrite fmap_cons. cbn [foldr]. rewrite decide_False by done.
    by rewrite IH.
  - rewrite decide_False by (intros ->; done). by rewrite IH.
Qed.

Lemma count_of_cons k x l :
  count_of k (x :: l) = ((if decide (x = k) then 1 else 0) + count_of k l)%Z.
Proof.
  unfold count_of. rewrite filter_cons.
  destruct (decide (x = k)); simpl length; lia.
Qed.

(** Summed over distinct keys that cover the list, the counts add up to its
    length. *)
Lemma sum_counts (ks l : list string) :
  NoDup ks → (∀ x, x ∈ l → x ∈ ks) →
  foldr Z.add 0%Z ((λ k, count_of k l) <$> ks) = Z.of_nat (length l).
Proof.
  intros Hnd. induction l as [|x l IH]; intros Hcover.
  - clear Hcover Hnd. induction ks as [|k ks IH]; [done|].
    rewrite fmap_cons. cbn [foldr]. by rewrite IH.
  - assert (foldr Z.add 0%Z ((λ k, count_of k (x :: l)) <$> ks)
            = (foldr Z.add 0%Z
                 ((λ k, if decide (k = x) then 1 else 0)%Z <$> ks)
               + foldr Z.add 0%Z ((λ k, count_of k l) <$> ks))%Z) as ->.
    { clear. induction ks as [|k ks IH]; [done|].
      rewrite !fmap_cons. cbn [foldr]. rewrite IH, count_of_cons.
      destruct (decide (x = k)), (decide (k = x)); try done; lia. }
    rewrite sum_indicator, IH; [simpl length; lia| |done|].
    + intros y Hy. apply Hcover. by right.
    + apply Hcover. by left.
Qed.

Lemma series_get_entry (f : string → Z) (s : Series) k :
  Forall (λ p, p.2 = f p.1) s → k ∈ s.*1 → series_get k s = Some (f k).
Proof.
  induction 1 as [|[k' v] s Hp _ IH]; [by intros ?%elem_of_nil|].
  rewrite fmap_cons. simpl in *. intros Hk.
  destruct (decide (k' = k)) as [->|Hne]; [by rewrite Hp|].
  apply IH. apply elem_of_cons in Hk as [Hk|Hk]; [by destruct Hne|done].
Qed.

Lemma elem_of_unique l x : x ∈ unique l ↔ x ∈ l.
Proof.
  induction l as [|y l IH]; [done|]. cbn [unique].
  rewrite !elem_of_cons, list_elem_of_filter, IH.
  destruct (decide (x = y)) as [->|Hne]; tauto.
Qed.

Lemma NoDup_unique l : NoDup (unique l).
Proof.
  induction l as [|y l IH]; cbn [unique]; [constructor|].
  constructor; [|by apply NoDup_filter].
  rewrite list_elem_of_filter. intros [Hne _]. by apply Hne.
Qed.

Lemma insert_by_count_perm p s : insert_by_count p s ≡ₚ p :: s.
Proof.
  induction s as [|q s IH]; [done|]. cbn [insert_by_count].
  case_decide; [done|]. rewrite IH. apply Permutation_swap.
Qed.

Lemma value_counts_perm l :
  value_counts l ≡ₚ (λ k, (k, count_of k l)) <$> unique l.
Proof.
  unfold value_counts. induction (_ <$> unique l) as [|p s IH]; [done|].
  cbn [foldr]. by rewrite insert_by_count_perm, IH.
Qed.

Lemma value_counts_entries l :
  Forall (λ p, p.2 = count_of p.1 l) (value_counts l).
Proof.
  apply Forall_forall. intros p Hp. rewrite value_counts_perm in Hp.
  by apply list_elem_of_fmap in Hp as (k & -> & _).
Qed.

Lemma value_counts_keys l : (value_counts l).*1 ≡ₚ unique l.
Proof.
  rewrite value_counts_perm, <- list_fmap_compose.
  trans (id <$> unique l); [|by rewrite list_fmap_id].
  by rewrite (list_fmap_ext (fst ∘ _) id (unique l)).
Qed.

Lemma reindex_keys keys s : (reindex keys s).*1 = keys.
Proof.
  unfold reindex. rewrite <- list_fmap_compose.
  rewrite <- (list_fmap_id keys) at 2. by apply list_fmap_ext.
Qed.

Lemma reindex_entries keys s :
  Forall (λ p, p.2 = default 0%Z (series_get p.1 s)) (reindex keys s).
Proof. unfold reindex. apply Forall_fmap. by apply Forall_true. Qed.

Lemma series_sub_keys a b : (series_sub a b).*1 = a.*1.
Proof.
  unfold series_sub. rewrite <- list_fmap_compose. by apply list_fmap_ext.
Qed.

Lemma series_sub_entries (f : string → Z) a b :
  Forall (λ p, p.2 = f p.1) a →
  Forall (λ p, p.2 = (f p.1 - default 0 (series_get p.1 b))%Z)
         (series_sub a b).
Proof.
  intros Ha. unfold series_sub. apply Forall_fmap.
  eapply Forall_impl; [exact Ha|]. intros p Hp. simpl. by rewrite Hp.
Qed.

(** Each per-dtype row sums to the number of columns of its dtype. *)
Lemma dtype_row_counts_columns df st row :
  row ∈ per_dtype (feature_counts df st) →
  total_per_dtype row = count_of (row_key row) (dtype <$> columns df).
Proof.
  unfold feature_counts. cbn [per_dtype]. unfold dtype_rows.
  set (l := dtype <$> columns df). set (dc := value_counts l).
  set (nn := reindex dc.*1
               (value_counts
                  (data_type <$> filter (λ s, null_count s = 0) st))).
  set (fu := reindex dc.*1
               (value_counts
                  (data_type <$>
                     filter (λ s, is_fully_unique (nrows df) s) st))).
  intros (p & -> & Hp)%list_elem_of_fmap. cbn.
  assert (p.1 ∈ dc.*1) as Hkey.
  { rewrite <- (reindex_keys dc.*1) at 1. by apply list_elem_of_fmap_2. }
  assert (series_get p.1 (series_sub (series_sub dc fu) nn)
          = Some (count_of p.1 l - default 0 (series_get p.1 fu)
                  - default 0 (series_get p.1 nn))%Z) as ->.
  { apply (series_get_entry
             (λ k, count_of k l - default 0 (series_get k fu)
                   - default 0 (series_get k nn))%Z).
    - apply (series_sub_entries
               (λ k, count_of k l - default 0 (series_get k fu))%Z).
      apply (series_sub_entries (λ k, count_of k l)).
      apply value_counts_entries.
    - by rewrite !series_sub_keys. }
  assert (series_get p.1 nn = Some p.2) as ->; [|simpl; lia].
  pose proof (reindex_entries dc.*1
    (value_counts (data_type <$> filter (λ s, null_count s = 0) st))) as He.
  fold nn in He.
  rewrite (series_get_entry
             (λ k, default 0%Z
                     (series_get k
                        (value_counts
                           (data_type <$>
                              filter (λ s, null_count s = 0) st))))
             nn _ He).
  - f_equal. symmetry. by apply (proj1 (Forall_forall _ _) He).
  - by apply list_elem_of_fmap_2.
Qed.

Lemma dtype_row_keys df st :
  row_key <$> per_dtype (feature_counts df st)
  = (value_counts (dtype <$> columns df)).*1.
Proof.
  unfold feature_counts. cbn [per_dtype]. unfold dtype_rows.
  rewrite <- list_fmap_compose.
  etrans; [|apply (reindex_keys _
    (value_counts (data_type <$> filter (λ s, null_count s = 0) st)))].
  by apply list_fmap_ext.
Qed.

(** The 'Total per dtype' entries add up to the number of columns. *)
Lemma grand_total_counts_columns df st :
  total_per_dtype (grand_total (feature_counts df st)) = Z.of_nat (ncols df).
Proof.
  change (total_per_dtype (grand_total (feature_counts df st)))
    with (sum_field total_per_dtype (per_dtype (feature_counts df st))).
  unfold sum_field.
  rewrite (list_fmap_ext total_per_dtype
             ((λ k, count_of k (dtype <$> columns df)) ∘ row_key)
             (per_dtype (feature_counts df st))).
  2:{ intros i row Hrow. apply (dtype_row_counts_columns df st).
      by apply list_elem_of_lookup_2 in Hrow. }
  rewrite list_fmap_compose, dtype_row_keys.
  rewrite (sum_Z_permutation _
             ((λ k, count_of k (dtype <$> columns df))
                <$> unique (dtype <$> columns df))).
  - rewrite sum_counts.
    + unfold ncols. by rewrite length_fmap.
    + apply NoDup_unique.
    + intros x. by rewrite elem_of_unique.
  - by rewrite value_counts_keys.
Qed.

(** C9.  In the feature counts a run returns, each per-dtype row's
    'Total per dtype' is the sum of its three category counts, and the 'Total'
    row is, field by field, the sum of the per-dtype rows (so its own
    'Total per dtype' is again the sum of its three category counts).  Each
    row total is the number of columns of that dtype, and the grand total is
    the number of columns left. *)
Theorem feature_counts_totals {plt : Matplotlib} (df : DataFrame)
    (verbose : bool) (r : Reduced) (Hrun : reduce df verbose = Returned r) :
  let rows := per_dtype (counts r) in
  let total := grand_total (counts r) in
  counts r = feature_counts (final_table r) (column_stats r) ∧
  (∀ row, row ∈ rows →
     total_per_dtype row
     = without_nulls row + fully_unique row + rest row ∧
     total_per_dtype row
     = count_of (row_key row) (dtype <$> columns (final_table r)))%Z ∧
  without_nulls total = sum_field without_nulls rows ∧
  fully_unique total = sum_field fully_unique rows ∧
  rest total = sum_field rest rows ∧
  total_per_dtype total = sum_field total_per_dtype rows ∧
  (total_per_dtype total
   = without_nulls total + fully_unique total + rest total)%Z ∧
  total_per_dtype total = Z.of_nat (ncols (final_table r)).
Proof.
  unfold reduce in Hrun.
  apply reducer_final in Hrun as (d & _ & _ & Hfinal & Hstats & Hfin & _).
  apply pass_finish in Hfin as [_ Hfc].
  rewrite <- Hstats, <- Hfinal in Hfc. cbn zeta. rewrite Hfc.
  split_and!; try done.
  - intros row Hrow. split.
    + revert Hrow. apply dtype_rows_total.
    + by apply (dtype_row_counts_columns _ (column_stats r)).
  - unfold feature_counts. cbn [per_dtype grand_total].
    unfold total_row. cbn [total_per_dtype without_nulls fully_unique rest].
    rewrite (sum_field_add total_per_dtype
               (λ row, without_nulls row + fully_unique row)%Z rest).
    + f_equal. by apply sum_field_add.
    + intros row. apply dtype_rows_total.
  - apply grand_total_counts_columns.
Qed.

Lemma feature_counts_totals_witness :
  ∃ r, reduce (plt := headless) table_sparse true = Returned r ∧
       per_dtype (counts r)
       = [mkRow "float64" 0 0 1 1; mkRow "object" 1 0 0 1] ∧
       grand_total (counts r) = mkRow "Total" 1 0 1 2 ∧
       total_per_dtype (grand_total (counts r))
       = Z.of_nat (ncols (final_table r)).
Proof.
  destruct (reduce (plt := headless) table_sparse true) as [r| |] eqn:Hrun;
    [|by vm_compute in Hrun..].
  exists r. split; [done|].
  split_and!;
    [vm_compute in Hrun; by injection Hrun as <-..|].
  apply (feature_counts_totals (plt := headless) table_sparse true r Hrun).
Defined.

(** ** Fully unique means null-free *)

Lemma length_remove_dups_le {A} `{EqDecision A} (l : list A) :
  length (remove_dups l) ≤ length l.
Proof.
  induction l as [|x l IH]; simpl; [done|].
  case_match; simpl; lia.
Qed.

Lemma length_non_null (cs : list cell) :
  length (omap id cs) + count_nulls cs = length cs.
Proof.
  unfold count_nulls. induction cs as [|[v|] cs IH]; simpl; [done| |].
  - rewrite filter_cons_False by done. f_equal. exact IH.
  - rewrite Nat.add_succ_r. f_equal. exact IH.
Qed.

Lemma nunique_bound (cs : list cell) :
  nunique cs + count_nulls cs ≤ length cs.
Proof.
  unfold nunique. pose proof (length_remove_dups_le (by_value <$> omap id cs)).
  pose proof (length_non_null cs). rewrite length_fmap in *. lia.
Qed.

(** Every fully-unique column is also free of nulls, so the first two
    categories of the feature counts overlap on it. *)
Lemma fully_unique_null_free n c :
  length (cells c) = n →
  is_fully_unique n (column_stat n c) = true →
  null_count (column_stat n c) = 0.
Proof.
  unfold is_fully_unique, column_stat. cbn [unique_count null_count].
  intros Hlen Hu%bool_decide_eq_true.
  pose proof (nunique_bound (cells c)).
  repeat case_bool_decide; lia.
Qed.

(** C3.  On two fully-unique integer columns the per-dtype row counts both
    columns as null-free and again as fully unique, and 'Rest' comes out as
    minus two: the three entries are not a partition of the two columns. *)
Theorem feature_counts_overlap {plt : Matplotlib} :
  match reduce table_XY false with
  | Returned r =>
      ncols (final_table r) = 2 ∧
      per_dtype (counts r) = [mkRow "int64" 2 2 (-2) 2]
  | _ => False
  end.
Proof. vm_compute. done. Qed.

(** * The A/B/C scenario *)









Lemma is_null_ints zs : is_null <$> ints zs = replicate (length zs) false.
Proof.
  unfold ints. induction zs as [|z zs IH]; [done|]. simpl. f_equal. exact IH.
Qed.





(** ** Frames in which some column has no null *)

















(** * Ambiguous index candidates *)

Lemma fmap_filter_comm {A B} (f : A → B) (P : A → Prop) (Q : B → Prop)
    `{!∀ x, Decision (P x)} `{!∀ y, Decision (Q y)} (l : list A) :
  (∀ x, P x ↔ Q (f x)) → f <$> filter P l = filter Q (f <$> l).
Proof.
  intros HPQ. induction l as [|x l IH]; [done|].
  rewrite fmap_cons, !filter_cons.
  destruct (decide (P x)) as [HP|HP], (decide (Q (f x))) as [HQ|HQ];
    rewrite ?fmap_cons, IH; try done; by apply HPQ in HP || apply HPQ in HQ.
Qed.


Lemma NoDup_fmap_eq {A B} (f : A → B) (l : list A) x y :
  NoDup (f <$> l) → x ∈ l → y ∈ l → f x = f y → x = y.
Proof.
  induction l as [|z l IH]; [by intros _ ?%elem_of_nil|].
  rewrite fmap_cons. intros [Hz Hnd]%NoDup_cons Hx Hy Hxy.
  apply elem_of_cons in Hx as [->|Hx], Hy as [->|Hy]; try done.
  - destruct Hz. rewrite Hxy. by apply list_elem_of_fmap_2.
  - destruct Hz. rewrite <- Hxy. by apply list_elem_of_fmap_2.
  - by apply IH.
Qed.

Lemma candidate_column n (cols : list Column) c :
  c ∈ can_be_index n (column_stat n <$> cols) →
  ∃ k, k ∈ cols ∧ label k = c ∧
       is_fully_unique n (column_stat n k) = true ∧ dtype k ≠ "float64".
Proof.
  unfold can_be_index.
  intros (s & -> & [Hs (k & -> & Hk)%list_elem_of_fmap]%list_elem_of_filter)
    %list_elem_of_fmap.
  apply andb_True in Hs as [Hu Hd]. exists k. split_and!; try done.
  - by apply Is_true_true.
  - by apply bool_decide_unpack in Hd.
Qed.


Section ambiguous.
Context (cands : list string).





End ambiguous.




(** * The caller's frame *)

Lemma fresh_unused (h : Store.heap) : h !! fresh (dom h) = None.
Proof. apply not_elem_of_dom, is_fresh. Qed.







(** * The loader's cache *)

Lemma append_cons c (p s : string) : String c p ++ s = String c (p ++ s).
Proof. done. Qed.

Lemma ends_with_slash_datasets p : ends_with "/" (p ++ "/datasets") = false.
Proof.
  induction p as [|c p IH]; [done|].
  rewrite append_cons. cbn [ends_with]. rewrite IH, orb_false_r.
  apply String.eqb_neq. intros [= _ Hp]. by destruct p.
Qed.

Lemma prefix_slash_csv name :
  String.prefix "/" name = false → String.prefix "/" (name ++ ".csv") = false.
Proof.
  destruct name as [|c name]; [done|]. rewrite append_cons. simpl.
  case_match; [|done]. by destruct name.
Qed.

Lemma append_datasets p f :
  ((p ++ "/datasets") ++ "/" ++ f = p ++ "/datasets/" ++ f)%string.
Proof.
  induction p as [|c p IH]; [done|].
  change (String c ((p ++ "/datasets") ++ "/" ++ f)
          = String c (p ++ "/datasets/" ++ f)).
  by rewrite IH.
Qed.

(** For a relative dataset name and a project path without a trailing
    separator the cache file is [<project_path>/datasets/<name>.csv], the
    suffix being added only when the name lacks it. *)
Lemma cache_file_path project_path name :
  project_path ≠ "" → ends_with "/" project_path = false →
  String.prefix "/" name = false →
  cache_file project_path name
  = project_path ++ "/datasets/" ++
    (if ends_with ".csv" name then name else name ++ ".csv").
Proof.
  intros Hp Hslash Hrel. unfold cache_file, os_path_join. cbn [foldl].
  assert (join_component project_path "datasets"
          = project_path ++ "/datasets") as ->.
  { unfold join_component. change (String.prefix "/" "datasets") with false.
    by rewrite bool_decide_false, Hslash by done. }
  unfold join_component.
  assert (String.prefix "/"
            (if negb (ends_with ".csv" name) then name ++ ".csv" else name)
          = false) as ->.
  { destruct (ends_with ".csv" name); simpl; [done|].
    by apply prefix_slash_csv. }
  rewrite bool_decide_false, ends_with_slash_datasets.
  - cbn [orb]. rewrite append_datasets. by destruct (ends_with ".csv" name).
  - by destruct project_path.
Qed.

Section loader_properties.
Context `{Libraries}.

Lemma read_cache_result filename name display_head (w : World) :
  (read_cache filename name display_head w).1
  = match files w !! filename ≫= read_csv with
    | Some df => Loaded df
    | None => ReadFailed
    end.
Proof. unfold read_cache. by destruct (_ ≫= _). Qed.

(** Reading the cache sends no query and touches no file. *)
Lemma read_cache_world filename name display_head (w : World) :
  files (read_cache filename name display_head w).2 = files w ∧
  fetches (read_cache filename name display_head w).2 = fetches w.
Proof. unfold read_cache. by destruct (_ ≫= _). Qed.

Lemma read_cache_writable filename name display_head (w : World) :
  writable (read_cache filename name display_head w).2 = writable w.
Proof. unfold read_cache. by destruct (_ ≫= _). Qed.

(** A call that finds the cache file reads it and sends no query. *)
Lemma load_cached project_path name display_head (w : World) content :
  files w !! cache_file project_path name = Some content →
  load_exoplanet_data project_path name display_head w
  = read_cache (cache_file project_path name) name display_head w.
Proof. intros Hc. unfold load_exoplanet_data. by rewrite Hc. Qed.

(** What a call that fails neither in the query nor in the write leaves
    behind: the cache file, holding what the call then read. *)
Lemma load_past_write project_path name display_head (w : World) :
  let cache := cache_file project_path name in
  let call := load_exoplanet_data project_path name display_head w in
  call.1 ≠ QueryFailed → call.1 ≠ WriteFailed →
  ∃ content,
    files call.2 !! cache = Some content ∧
    call.1 = match read_csv content with
             | Some df => Loaded df
             | None => ReadFailed
             end ∧
    (files w !! cache = None →
       writable w cache = true ∧ fetches call.2 = S (fetches w) ∧
       ∃ t, query_criteria (fetches w) = Some t ∧
            files call.2 = <[cache := write_csv (strip_dex t).1]> (files w)) ∧
    (is_Some (files w !! cache) →
       fetches call.2 = fetches w ∧ files call.2 = files w).
Proof.
  intros cache call. subst call. unfold load_exoplanet_data. fold cache.
  destruct (files w !! cache) as [content|] eqn:Hc.
  - intros _ _. exists content.
    destruct (read_cache_world cache name display_head w) as [-> ->].
    rewrite read_cache_result, Hc. split_and!; try done.
  - destruct (query_criteria (fetches w)) as [t|]; [|done].
    destruct (strip_dex t) as [t' out] eqn:Hstrip.
    destruct (writable w cache) eqn:Hw; [|done]. intros _ _.
    exists (write_csv t').
    match goal with
    | |- context [read_cache cache name display_head ?w0] =>
        destruct (read_cache_world cache name display_head w0) as [-> ->];
        rewrite (read_cache_result cache name display_head w0)
    end.
    cbn [files fetches]. rewrite lookup_insert_eq.
    split_and!; try done.
    intros _. split_and!; try done. exists t. by rewrite Hstrip.
Qed.

(** C8 (amended).  Two calls of the loader with the same project path and
    dataset name, the first of which fails neither in the query nor in
    writing the cache file, send at most one query between them.  After the
    first call the cache file exists; when it was missing, that call sent
    one query and wrote the file with what it fetched; when it was there, the
    call sent none.  The second call finds the file, sends no query, leaves
    the files as they are and reads the same result.  The cache file is
    [<project_path>/datasets/<name>.csv] ([.csv] added only when the name
    lacks it) for a relative name and a project path without a trailing
    separator. *)
Theorem loader_fetches_once (project_path name : string)
    (head1 head2 : option nat) (w : World)
    (Hquery : (load_exoplanet_data project_path name head1 w).1 ≠ QueryFailed)
    (Hwrite : (load_exoplanet_data project_path name head1 w).1 ≠ WriteFailed) :
  let cache := cache_file project_path name in
  let first := load_exoplanet_data project_path name head1 w in
  let second := load_exoplanet_data project_path name head2 first.2 in
  is_Some (files first.2 !! cache) ∧
  (files w !! cache = None →
     writable w cache = true ∧ fetches first.2 = S (fetches w) ∧
     ∃ t, query_criteria (fetches w) = Some t ∧
          files first.2 = <[cache := write_csv (strip_dex t).1]> (files w)) ∧
  (is_Some (files w !! cache) →
     fetches first.2 = fetches w ∧ files first.2 = files w) ∧
  fetches second.2 = fetches first.2 ∧
  files second.2 = files first.2 ∧
  second.1 = first.1 ∧
  fetches second.2 ≤ S (fetches w) ∧
  (project_path ≠ "" → ends_with "/" project_path = false →
   String.prefix "/" name = false →
   cache = project_path ++ "/datasets/" ++
           (if ends_with ".csv" name then name else name ++ ".csv")).
Proof.
  intros cache first second.
  destruct (load_past_write project_path name head1 w Hquery Hwrite)
    as (content & Hcontent & Hres & Hmissing & Hthere).
  fold cache in Hcontent, Hmissing, Hthere. fold first in Hcontent, Hres, Hmissing, Hthere.
  assert (second = read_cache cache name head2 first.2) as Hsecond.
  { subst second. by apply (load_cached _ _ _ _ content). }
  destruct (read_cache_world cache name head2 first.2) as [Hfiles Hfetches].
  rewrite Hsecond. split_and!; try done.
  - by rewrite read_cache_result, Hcontent, Hres.
  - rewrite Hfetches. destruct (files w !! cache) as [c0|] eqn:Hc.
    + destruct Hthere as [-> _]; [by eexists|lia].
    + destruct Hmissing as (_ & -> & _); [done|lia].
  - apply cache_file_path.
Qed.

End loader_properties.

(** C8, as stated, fails when the first call cannot write the cache file
    (the [datasets] directory is missing, say): the query is sent, the write
    raises, no file is left, and the second call with the same name sends
    the query again. *)
Lemma loader_fetches_twice :
  let w : @World sample_libraries :=
    {| files := ∅; writable := λ _, false; fetches := 0; console := [] |} in
  let first := load_exoplanet_data "/home/u/exoplanets" "pscomppars" None w in
  let second :=
    load_exoplanet_data "/home/u/exoplanets" "pscomppars" None first.2 in
  first.1 = WriteFailed ∧ fetches first.2 = 1 ∧
  files first.2 !! "/home/u/exoplanets/datasets/pscomppars.csv" = None ∧
  second.1 = WriteFailed ∧ fetches second.2 = 2.
Proof. by vm_compute. Qed.

Lemma loader_fetches_once_witness :
  let w : @World sample_libraries :=
    {| files := ∅; writable := λ _, true; fetches := 0; console := [] |} in
  let first := load_exoplanet_data "/home/u/exoplanets" "pscomppars" None w in
  let second :=
    load_exoplanet_data "/home/u/exoplanets" "pscomppars" (Some 5) first.2 in
  first.1 ≠ QueryFailed ∧ first.1 ≠ WriteFailed ∧
  files first.2 !! "/home/u/exoplanets/datasets/pscomppars.csv"
  = Some table_XY ∧
  fetches first.2 = 1 ∧ fetches second.2 = 1 ∧ second.1 = Loaded table_XY.
Proof.
  intros w first second.
  assert (first.1 ≠ QueryFailed) as Hquery by (by vm_compute).
  assert (first.1 ≠ WriteFailed) as Hwrite by (by vm_compute).
  split; [exact Hquery|]. split; [exact Hwrite|].
  destruct (loader_fetches_once "/home/u/exoplanets" "pscomppars" None (Some 5)
              w Hquery Hwrite)
    as (_ & Hmissing & _ & Hfetch & _ & Hsame & _).
  destruct Hmissing as (_ & Hone & _); [done|].
  split_and!; [by vm_compute|exact Hone| |].
  - fold first in Hfetch. fold second in Hfetch. by rewrite Hfetch.
  - fold first in Hsame. fold second in Hsame. rewrite Hsame. by vm_compute.
Defined.
(** * Further properties of the reducer *)

(** ** The reducer only removes *)

Lemma select_sublist {A} (mask : list bool) (l : list A) :
  select mask l `sublist_of` l.
Proof.
  revert l. induction mask as [|b mask IH]; intros [|x l]; simpl;
    try apply sublist_nil_l.
  destruct b; [by apply sublist_skip|by apply sublist_cons].
Qed.

Lemma schema_drop_null_rows d : schema (drop_null_rows d) = schema d.
Proof. unfold schema. simpl. by rewrite <- list_fmap_compose. Qed.

Lemma restart_columns d d' :
  restart (reduce_pass d) = Some d' →
  columns d' `sublist_of` columns (drop_null_rows d).
Proof.
  intros [(c & _ & -> & _)|(cs & msgs & _ & -> & _)]%restart_cases; simpl;
    apply sublist_filter.
Qed.

(** X1.  The columns of the frame a run ends on when it returns are columns of
    the input, under the same label and dtype and in the same order: the
    reducer adds, renames, retypes and reorders nothing. *)
Theorem columns_only_removed {plt : Matplotlib} (df : DataFrame)
    (verbose : bool) (r : Reduced) (Hrun : reduce df verbose = Returned r) :
  schema (final_table r) `sublist_of` schema df.
Proof.
  revert Hrun. unfold reduce. generalize (S (ncols df)).
  intros fuel. revert df r.
  apply (reducer_ind verbose (λ d r, schema (final_table r) `sublist_of` schema d)).
  - intros d fc out _ _. simpl. by rewrite schema_drop_null_rows.
  - intros d d' r' Hre IH. simpl. etrans; [exact IH|].
    rewrite <- (schema_drop_null_rows d). unfold schema.
    by apply fmap_sublist, restart_columns.
Qed.

Lemma columns_only_removed_witness :
  ∃ r, reduce (plt := headless) table_sparse true = Returned r ∧
       schema (final_table r) = [("mass", "float64"); ("name", "object")] ∧
       schema (final_table r) `sublist_of` schema table_sparse.
Proof.
  destruct (reduce (plt := headless) table_sparse true) as [r| |] eqn:Hrun;
    [|by vm_compute in Hrun..].
  exists r. split_and!; [done| |].
  - vm_compute in Hrun. by injection Hrun as <-.
  - exact (columns_only_removed (plt := headless) table_sparse true r Hrun).
Defined.

(** X2.  No cell is ever rewritten: every column of the frame a run ends on
    when it returns holds a sub-sequence of the cells its column held in the
    input. *)
Theorem cells_only_removed {plt : Matplotlib} (df : DataFrame)
    (verbose : bool) (r : Reduced) (Hrun : reduce df verbose = Returned r) :
  ∀ k, k ∈ columns (final_table r) →
    ∃ k0, k0 ∈ columns df ∧ label k = label k0 ∧ dtype k = dtype k0 ∧
          cells k `sublist_of` cells k0.
Proof.
  revert Hrun. unfold reduce. generalize (S (ncols df)).
  intros fuel. revert df r.
  assert (∀ d k, k ∈ columns (drop_null_rows d) →
            ∃ k0, k0 ∈ columns d ∧ label k = label k0 ∧ dtype k = dtype k0 ∧
                  cells k `sublist_of` cells k0) as Hfilter.
  { intros d k (k0 & -> & Hk0)%list_elem_of_fmap. exists k0.
    split_and!; try done. apply select_sublist. }
  apply (reducer_ind verbose
           (λ d r, ∀ k, k ∈ columns (final_table r) →
              ∃ k0, k0 ∈ columns d ∧ label k = label k0 ∧
                    dtype k = dtype k0 ∧ cells k `sublist_of` cells k0)).
  - intros d fc out _ _ k Hk. by apply Hfilter.
  - intros d d' r' Hre IH k Hk. simpl in Hk.
    destruct (IH k Hk) as (k1 & Hk1 & Hl & Hd & Hsub).
    pose proof (restart_columns d d' Hre) as Hcols.
    destruct (Hfilter d k1) as (k0 & Hk0 & Hl0 & Hd0 & Hsub0).
    { by eapply elem_of_sublist. }
    exists k0. split_and!; try congruence; try done. by etrans.
Qed.

Lemma cells_only_removed_witness :
  ∃ r, reduce (plt := headless) table_planets false = Returned r ∧
       columns (final_table r)
       = [mkColumn "mass" "float64"
            [Some (VFloat 3 0); Some (VFloat 5 0); Some (VFloat 3 0);
             Some (VFloat 7 0)]] ∧
       ∀ k, k ∈ columns (final_table r) →
         ∃ k0, k0 ∈ columns table_planets ∧ label k = label k0 ∧
               dtype k = dtype k0 ∧ cells k `sublist_of` cells k0.
Proof.
  destruct (reduce (plt := headless) table_planets false) as [r| |] eqn:Hrun;
    [|by vm_compute in Hrun..].
  exists r. split_and!; [done| |].
  - vm_compute in Hrun. by injection Hrun as <-.
  - exact (cells_only_removed (plt := headless) table_planets false r Hrun).
Defined.

(** ** Rows of the final frame *)

Lemma restart_nrows d d' :
  rectangular d → restart (reduce_pass d) = Some d' →
  nrows d' = nrows (drop_null_rows d).
Proof.
  intros Hr%drop_null_rows_rectangular Hre.
  destruct (restart_cases d d' Hre)
    as [(c & Hact & -> & _)|(cs & msgs & _ & -> & _)]; [|done].
  apply nrows_set_index; [done|].
  apply pass_promote in Hact as [_ Hc].
  apply can_be_index_labels. rewrite Hc. by left.
Qed.

Lemma nrows_drop_null_rows_le d : nrows (drop_null_rows d) ≤ nrows d.
Proof. apply length_select_le. Qed.

Lemma final_rows_le {plt : Matplotlib} fuel df verbose r :
  rectangular df →
  set_index_remove_null_columns fuel df verbose = Returned r →
  nrows (final_table r) ≤ nrows df.
Proof.
  intros Hrect Hrun. revert fuel df r Hrun Hrect.
  apply (reducer_ind verbose
           (λ d r, rectangular d → nrows (final_table r) ≤ nrows d)).
  - intros d fc out _ _ _. apply nrows_drop_null_rows_le.
  - intros d d' r' Hre IH Hrect. simpl.
    pose proof (restart_rectangular d d' Hrect Hre) as Hrect'.
    pose proof (restart_nrows d d' Hrect Hre) as Hn.
    pose proof (nrows_drop_null_rows_le d). specialize (IH Hrect'). lia.
Qed.

(** X3.  On a rectangular input the frame a run ends on when it returns is
    rectangular, has no more rows than the input, and none of its rows is
    null in every column. *)
Theorem final_frame_rows {plt : Matplotlib} (df : DataFrame) (verbose : bool)
    (r : Reduced) (Hrect : rectangular df)
    (Hrun : reduce df verbose = Returned r) :
  rectangular (final_table r) ∧
  nrows (final_table r) ≤ nrows df ∧
  null_rows (final_table r) = replicate (nrows (final_table r)) false.
Proof.
  unfold reduce in Hrun.
  pose proof (final_rows_le _ _ _ _ Hrect Hrun) as Hle.
  apply reducer_final in Hrun as (d & _ & Hd & Hfinal & _).
  rewrite Hfinal in Hle |- *. split_and!.
  - by apply drop_null_rows_rectangular, Hd.
  - exact Hle.
  - by apply null_rows_drop_null_rows, Hd.
Qed.

Lemma final_frame_rows_witness :
  rectangular table_gap ∧
  ∃ r, reduce (plt := headless) table_gap false = Returned r ∧
       nrows (final_table r) = 2 ∧
       null_rows (final_table r) = [false; false].
Proof.
  assert (rectangular table_gap) as Hrect by (by repeat constructor).
  split; [exact Hrect|].
  destruct (reduce (plt := headless) table_gap false) as [r| |] eqn:Hrun;
    [|by vm_compute in Hrun..].
  destruct (final_frame_rows (plt := headless) table_gap false r Hrect Hrun)
    as (_ & _ & Hnull).
  assert (nrows (final_table r) = 2) as Hn.
  { vm_compute in Hrun. by injection Hrun as <-. }
  exists r. split_and!; [done|exact Hn|]. by rewrite Hnull, Hn.
Defined.

(** ** What is left is informative *)

(** A column that passes the threshold test has at least two distinct values,
    its statistics are the raw counts, and the frame has at least two rows. *)
Lemma kept_column_facts n k :
  is_high_null n (column_stat n k) = false →
  2 ≤ nunique (cells k) ∧ count_nulls (cells k) < n / 2 ∧ 2 ≤ n ∧
  column_stat n k
  = mkStat (label k) (dtype k) (count_nulls (cells k)) (nunique (cells k)).
Proof.
  unfold is_high_null, column_stat. cbn [null_count].
  intros Hlow%bool_decide_eq_false.
  pose proof (Nat.div_mod_eq n 2) as Hdiv.
  pose proof (Nat.mod_upper_bound n 2 ltac:(lia)) as Hmod.
  repeat case_bool_decide; try lia. split_and!; try lia. done.
Qed.

Lemma final_columns_kept {plt : Matplotlib} fuel df verbose r k :
  set_index_remove_null_columns fuel df verbose = Returned r →
  k ∈ columns (final_table r) →
  is_high_null (nrows (final_table r))
    (column_stat (nrows (final_table r)) k) = false.
Proof.
  intros (d & _ & _ & -> & _ & Hfin & _)%reducer_final Hk.
  apply pass_finish in Hfin as [Hnone _].
  apply (high_null_none _ _ _ Hnone).
  unfold columns_statistics. by apply list_elem_of_fmap_2.
Qed.

(** X4.  Every column of the frame a run ends on when it returns has at least
    two distinct values and is null in fewer than [nrows // 2] rows, its
    statistics are the raw counts (nothing zeroed or forced), and a frame
    that keeps a column keeps at least two rows. *)
Theorem remaining_columns_informative {plt : Matplotlib} (df : DataFrame)
    (verbose : bool) (r : Reduced) (Hrun : reduce df verbose = Returned r) :
  let n := nrows (final_table r) in
  column_stats r = columns_statistics (final_table r) ∧
  (∀ k, k ∈ columns (final_table r) →
     2 ≤ nunique (cells k) ∧ count_nulls (cells k) < n / 2 ∧
     column_stat n k
     = mkStat (label k) (dtype k) (count_nulls (cells k))
              (nunique (cells k))) ∧
  (columns (final_table r) ≠ [] → 2 ≤ n).
Proof.
  unfold reduce in Hrun. cbn zeta.
  pose proof (λ k, final_columns_kept _ _ _ _ k Hrun) as Hkept.
  apply reducer_final in Hrun as (d & _ & _ & Hfinal & Hstats & _).
  split_and!.
  - by rewrite Hstats, Hfinal.
  - intros k Hk. destruct (kept_column_facts _ k (Hkept k Hk)); tauto.
  - destruct (columns (final_table r)) as [|k cols] eqn:Hcols; [done|].
    intros _. destruct (kept_column_facts _ k (Hkept k ltac:(by left))); tauto.
Qed.

Lemma remaining_columns_informative_witness :
  ∃ r, reduce (plt := headless) table_sparse false = Returned r ∧
       column_stats r
       = [mkStat "mass" "float64" 1 3; mkStat "name" "object" 0 3] ∧
       column_stats r = columns_statistics (final_table r).
Proof.
  destruct (reduce (plt := headless) table_sparse false) as [r| |] eqn:Hrun;
    [|by vm_compute in Hrun..].
  exists r. split_and!; [done| |].
  - vm_compute in Hrun. by injection Hrun as <-.
  - exact (proj1 (remaining_columns_informative (plt := headless)
                    table_sparse false r Hrun)).
Defined.

(** X5.  A rectangular table of at most one row is reduced to the empty frame:
    when the run returns, no column and no row are left. *)
Theorem short_table_vanishes {plt : Matplotlib} (df : DataFrame)
    (verbose : bool) (r : Reduced)
    (Hrect : rectangular df) (Hshort : nrows df ≤ 1)
    (Hrun : reduce df verbose = Returned r) :
  columns (final_table r) = [] ∧ index (final_table r) = [] ∧
  column_stats r = [] ∧ counts r = no_features.
Proof.
  unfold reduce in Hrun.
  pose proof (final_rows_le _ _ _ _ Hrect Hrun) as Hle.
  pose proof (λ k, final_columns_kept _ _ _ _ k Hrun) as Hkept.
  apply reducer_final in Hrun as (d & _ & _ & Hfinal & Hstats & Hfin & _).
  assert (columns (final_table r) = []) as Hnone.
  { destruct (columns (final_table r)) as [|k cols] eqn:Hcols; [done|].
    destruct (kept_column_facts _ k (Hkept k ltac:(by left)))
      as (_ & _ & Htwo & _). lia. }
  assert (columns d = []) as Hd.
  { rewrite Hfinal in Hnone. simpl in Hnone.
    by apply fmap_nil_inv in Hnone. }
  destruct (reduce_pass_no_columns d Hd) as (_ & _ & Hact & _).
  rewrite Hfin in Hact. injection Hact as Hcounts.
  rewrite Hstats, Hfinal, (drop_null_rows_no_columns d Hd). done.
Qed.

Lemma short_table_vanishes_witness :
  rectangular table_empty_XY ∧ nrows table_empty_XY ≤ 1 ∧
  ∃ r, reduce (plt := headless) table_empty_XY true = Returned r ∧
       columns (final_table r) = [].
Proof.
  assert (rectangular table_empty_XY) as Hrect by (by repeat constructor).
  assert (nrows table_empty_XY ≤ 1) as Hshort by (vm_compute; lia).
  split_and!; [exact Hrect|exact Hshort|].
  destruct (reduce (plt := headless) table_empty_XY true) as [r| |] eqn:Hrun;
    [|by vm_compute in Hrun..].
  exists r. split; [done|].
  exact (proj1 (short_table_vanishes (plt := headless) table_empty_XY true r
                  Hrect Hshort Hrun)).
Defined.

(** ** The verbose flag *)

Lemma pass_progress d : Forall (λ m, is_progress m = true) (printed (reduce_pass d)).
Proof.
  unfold reduce_pass, prune_or_finish.
  destruct (has_default_index _);
    [destruct (can_be_index _ _) as [|c [|c' cs']]|];
    repeat case_bool_decide; try destruct (groupby_sorts _);
    cbn [printed]; by repeat constructor.
Qed.

(** A quiet and a verbose run side by side, on any amount of fuel. *)
Lemma verbose_run {plt : Matplotlib} fuel df :
  match set_index_remove_null_columns fuel df false,
        set_index_remove_null_columns fuel df true with
  | Returned q, Returned v =>
      final_table v = final_table q ∧ returned_value v = returned_value q ∧
      Forall (λ m, is_progress m = true) (output q) ∧
      output v
      = (output q ++
         [ShowStatistics (column_stats q); ShowFeatureCounts (counts q)] ++
         (if bool_decide (get_backend = "agg") then [AggWarning]
          else ShowFigure <$> figures) ++
         [FinalShape (nrows (final_table q)) (ncols (final_table q))])%list
  | Returned q, Raised e out =>
      get_backend ≠ "agg" ∧
      Forall (λ m, is_progress m = true) (output q) ∧
      ∃ f shown, e = PlotError f ∧ show f (final_table q) = false ∧
        out = (output q ++
               [ShowStatistics (column_stats q);
                ShowFeatureCounts (counts q)] ++
               (ShowFigure <$> shown))%list
  | Raised e out, Raised e' out' =>
      e = TypeError ∧ e' = TypeError ∧ out' = out ∧
      Forall (λ m, is_progress m = true) out
  | OutOfFuel, OutOfFuel => True
  | _, _ => False
  end.
Proof.
  revert df. induction fuel as [|fuel IH]; intros df; [done|].
  rewrite !reducer_step. pose proof (pass_progress df) as Hpr.
  destruct (restart (reduce_pass df)) as [d'|].
  - specialize (IH d').
    destruct (set_index_remove_null_columns fuel d' false) as [q|e out|],
             (set_index_remove_null_columns fuel d' true) as [v|e' out'|];
      try done; cbn [and_then final_table column_stats counts output
                       returned_value] in *.
    + destruct IH as (Hf & Hv & Hq & Hout). split_and!; try done.
      * by apply Forall_app.
      * by rewrite Hout, <- !app_assoc.
    + destruct IH as (Hb & Hq & f & shown & -> & Hshow & ->).
      split_and!; try done; [by apply Forall_app|].
      exists f, shown. split_and!; try done. by rewrite <- !app_assoc.
    + destruct IH as (-> & -> & -> & Hq). split_and!; try done.
      by apply Forall_app.
  - destruct (act (reduce_pass df)) as [c|cs| |fc]; try done.
    rewrite final_display_quiet.
    destruct (final_display_cases true (drop_null_rows df)
                (columns_statistics (drop_null_rows df)) fc)
      as [[[=] _]|[(_ & Hb & ->)|[(_ & Hb & ->)|(_ & Hb & shown & f & Hf & ->)]]];
      cbn [final_table column_stats counts output returned_value];
      rewrite app_nil_r.
    + rewrite bool_decide_true by done. by split_and!.
    + rewrite bool_decide_false by done. by split_and!.
    + split_and!; try done. by exists f, shown.
Qed.

(** X6.  The verbose flag only adds output.  A quiet run prints progress
    reports only.  Where it raises, in the [groupby] of line 76, the verbose
    run raises there too, after the same output.  Where it returns, the
    verbose run has taken the same passes and printed the same reports, and
    then prints the two tables and either the agg warning or the three
    figures; if no figure raises it prints the shape, ends on the same frame
    and returns the same statistics and feature counts. *)
Theorem verbose_only_prints {plt : Matplotlib} (df : DataFrame) :
  match reduce df false, reduce df true with
  | Returned q, Returned v =>
      final_table v = final_table q ∧ returned_value v = returned_value q ∧
      Forall (λ m, is_progress m = true) (output q) ∧
      output v
      = (output q ++
         [ShowStatistics (column_stats q); ShowFeatureCounts (counts q)] ++
         (if bool_decide (get_backend = "agg") then [AggWarning]
          else ShowFigure <$> figures) ++
         [FinalShape (nrows (final_table q)) (ncols (final_table q))])%list
  | Returned q, Raised e out =>
      get_backend ≠ "agg" ∧
      Forall (λ m, is_progress m = true) (output q) ∧
      ∃ f shown, e = PlotError f ∧ show f (final_table q) = false ∧
        out = (output q ++
               [ShowStatistics (column_stats q);
                ShowFeatureCounts (counts q)] ++
               (ShowFigure <$> shown))%list
  | Raised e out, Raised e' out' =>
      e = TypeError ∧ e' = TypeError ∧ out' = out ∧
      Forall (λ m, is_progress m = true) out
  | _, _ => False
  end.
Proof.
  unfold reduce. pose proof (verbose_run (S (ncols df)) df) as Hv.
  pose proof (reducer_halts (S (ncols df)) df false ltac:(lia)) as Hq.
  destruct (set_index_remove_null_columns _ df false) as [q|e out|],
           (set_index_remove_null_columns _ df true) as [v|e' out'|];
    done.
Qed.

(** ** The index across a run *)

Lemma promotions_app (a b : list message) :
  promotions (a ++ b) = (promotions a ++ promotions b)%list.
Proof. apply omap_app. Qed.

Lemma has_default_named d nm :
  index_name d = Some nm → has_default_index d = false.
Proof. intros Hn. unfold has_default_index. by rewrite Hn. Qed.

Lemma remove_dups_length_NoDup {A} `{EqDecision A} (l : list A) :
  length (remove_dups l) = length l → NoDup l.
Proof.
  induction l as [|x l IH]; [constructor|]. simpl.
  pose proof (length_remove_dups_le l).
  destruct (decide_rel elem_of x l) as [Hin|Hout]; simpl; [lia|].
  intros [= Hlen]. constructor; auto.
Qed.

Lemma no_nulls_cells (cs : list cell) :
  count_nulls cs = 0 → cs = Some <$> omap id cs.
Proof.
  unfold count_nulls. induction cs as [|[v|] cs IH]; simpl; [done| |done].
  rewrite filter_cons_False by done. intros Hz. f_equal. by apply IH.
Qed.

(** The cells of a fully-unique column are pairwise distinct, also by value,
    and none of them is null. *)
Lemma fully_unique_cells n k :
  length (cells k) = n → is_fully_unique n (column_stat n k) = true →
  NoDup (fmap (M := option) by_value <$> cells k) ∧ NoDup (cells k) ∧
  None ∉ cells k.
Proof.
  unfold is_fully_unique, column_stat. cbn [unique_count].
  intros Hlen Hu%bool_decide_eq_true.
  case_bool_decide as Hone.
  { subst n. symmetry in Hu. apply nil_length_inv in Hu. rewrite Hu.
    split_and!; [constructor|constructor|apply not_elem_of_nil]. }
  pose proof (nunique_bound (cells k)) as Hb.
  pose proof (length_non_null (cells k)) as Hnn.
  assert (count_nulls (cells k) = 0) as Hz by lia.
  assert (NoDup (by_value <$> omap id (cells k))) as Hnd.
  { apply remove_dups_length_NoDup. unfold nunique in Hu.
    rewrite length_fmap. lia. }
  rewrite (no_nulls_cells _ Hz). split_and!.
  - rewrite <- list_fmap_compose.
    rewrite (list_fmap_ext _ (Some ∘ by_value) (omap id (cells k)))
      by done.
    rewrite list_fmap_compose.
    apply NoDup_fmap_2; [by intros x y [= ->]|done].
  - apply NoDup_fmap_2; [by intros x y [= ->]|].
    by apply NoDup_fmap_1 in Hnd.
  - by intros (v & [=] & _)%list_elem_of_fmap.
Qed.

Lemma restart_labels d d' :
  restart (reduce_pass d) = Some d' →
  column_labels d' `sublist_of` column_labels d.
Proof.
  intros Hre%restart_columns. unfold column_labels.
  rewrite <- (columns_drop_null_rows d). by apply fmap_sublist.
Qed.

(** Once the index has a name, no pass sets it again: the name stays, the
    labels are only filtered, and nothing is reported as promoted. *)
Lemma named_index_run {plt : Matplotlib} fuel df verbose r nm :
  index_name df = Some nm →
  set_index_remove_null_columns fuel df verbose = Returned r →
  index_name (final_table r) = Some nm ∧
  index (final_table r) `sublist_of` index df ∧
  Forall (λ m, is_progress m = true →
               m = DroppingHeader ∨ ∃ cs, m = DroppingColumns cs)
         (output r).
Proof.
  intros Hname Hrun. revert fuel df r Hrun Hname.
  apply (reducer_ind verbose
           (λ d r, index_name d = Some nm →
              index_name (final_table r) = Some nm ∧
              index (final_table r) `sublist_of` index d ∧
              Forall (λ m, is_progress m = true →
                           m = DroppingHeader ∨ ∃ cs, m = DroppingColumns cs)
                     (output r))).
  - intros d fc out Hfin Hshow Hname. simpl.
    split_and!; [done|apply select_sublist|].
    assert (printed (reduce_pass d) = []) as ->.
    { unfold reduce_pass in *.
      rewrite (has_default_named (drop_null_rows d) nm Hname) in *.
      unfold prune_or_finish in *. case_bool_decide; [done|].
      by destruct (groupby_sorts _). }
    destruct (final_display_events verbose (drop_null_rows d)
                (columns_statistics (drop_null_rows d)) fc) as (Hev & _).
    rewrite Hshow in Hev. cbn [app fst] in *.
    eapply Forall_impl; [exact Hev|]. intros m Hm Hp. congruence.
  - intros d d' r' Hre IH Hname. simpl.
    destruct (restart_cases d d' Hre)
      as [(c & Hact & _)|(cs & msgs & Hact & -> & Hpr & _)].
    { apply pass_promote in Hact as [Hdef _].
      by rewrite (has_default_named (drop_null_rows d) nm Hname) in Hdef. }
    destruct (IH Hname) as (Hn & Hsub & Hout).
    split_and!; [done| |].
    + etrans; [exact Hsub|]. apply select_sublist.
    + assert (printed (reduce_pass d)
              = [DroppingHeader; DroppingColumns cs]) as ->.
      { unfold reduce_pass in *.
        rewrite (has_default_named (drop_null_rows d) nm Hname) in *.
        unfold prune_or_finish in *. case_bool_decide; [done|].
        destruct (groupby_sorts _); [|done].
        simpl in *. by injection Hact as ->. }
      cbn [app]. constructor; [by left|]. constructor; [|done].
      right. by eexists.
Qed.

(** X7.  A table whose index already has a name is never re-indexed.  When the
    run returns, it ends under the same index name, with a sub-sequence of
    the same index labels, and the only progress it has reported is the
    dropping of columns (the search for an index column is skipped). *)
Theorem named_index_kept {plt : Matplotlib} (df : DataFrame) (verbose : bool)
    (nm : string) (r : Reduced)
    (Hname : index_name df = Some nm)
    (Hrun : reduce df verbose = Returned r) :
  index_name (final_table r) = Some nm ∧
  index (final_table r) `sublist_of` index df ∧
  promotions (output r) = [] ∧
  Forall (λ m, is_progress m = true →
               m = DroppingHeader ∨ ∃ cs, m = DroppingColumns cs)
         (output r).
Proof.
  unfold reduce in Hrun.
  destruct (named_index_run _ _ _ _ nm Hname Hrun) as (Hn & Hsub & Hout).
  split_and!; try done.
  clear -Hout. induction Hout as [|m out Hm _ IH]; [done|].
  cbn. destruct m; try done. by destruct (Hm eq_refl) as [?|[? ?]].
Qed.

Lemma named_index_kept_witness :
  index_name (set_index "A" table_ABC) = Some "A" ∧
  ∃ r, reduce (plt := headless) (set_index "A" table_ABC) true = Returned r ∧
       index_name (final_table r) = Some "A" ∧
       promotions (output r) = [].
Proof.
  assert (index_name (set_index "A" table_ABC) = Some "A") as Hname by done.
  split; [exact Hname|].
  destruct (reduce (plt := headless) (set_index "A" table_ABC) true)
    as [r| |] eqn:Hrun; [|by vm_compute in Hrun..].
  destruct (named_index_kept (plt := headless) (set_index "A" table_ABC) true
              "A" r Hname Hrun) as (Hn & _ & Hp & _).
  by exists r.
Defined.

Lemma promoted_column d c :
  rectangular d → NoDup (column_labels d) →
  act (reduce_pass d) = Promote c →
  ∃ k0, k0 ∈ columns d ∧ label k0 = c ∧ dtype k0 ≠ "float64" ∧
        index (set_index c (drop_null_rows d)) `sublist_of` cells k0 ∧
        NoDup (index (set_index c (drop_null_rows d))) ∧
        None ∉ index (set_index c (drop_null_rows d)).
Proof.
  intros Hrect Hnd [_ Hc]%pass_promote.
  set (w := drop_null_rows d) in *.
  assert (rectangular w) as Hw by by apply drop_null_rows_rectangular.
  assert (NoDup (label <$> columns w)) as Hndw.
  { unfold w. by rewrite columns_drop_null_rows. }
  destruct (candidate_column (nrows w) (columns w) c)
    as (k2 & Hk2 & Hlab & Hu & Hd).
  { fold (columns_statistics w). rewrite Hc. by left. }
  assert (index (set_index c w) = cells k2) as ->.
  { simpl. destruct (list_find _ _) as [[i k1]|] eqn:Hfind.
    - apply list_find_Some in Hfind as (Hk1%list_elem_of_lookup_2 & Hl1 & _).
      f_equal. apply (NoDup_fmap_eq label (columns w)); try done.
      by rewrite Hl1.
    - apply list_find_None in Hfind.
      by destruct (proj1 (Forall_forall _ _) Hfind k2 Hk2). }
  pose proof (proj1 (Forall_forall _ _) Hw k2 Hk2) as Hlen.
  destruct (fully_unique_cells _ _ Hlen Hu) as (_ & Huniq & Hnonnull).
  unfold w in Hk2. simpl in Hk2.
  apply list_elem_of_fmap in Hk2 as (k0 & -> & Hk0).
  exists k0. split_and!; try done. apply select_sublist.
Qed.

(** How the index of the final frame relates to the input: either nothing
    was promoted and the index is the input's, filtered; or exactly one column
    was promoted, from an unnamed index, and the index is that column's
    cells, filtered. *)
Lemma index_run {plt : Matplotlib} fuel df verbose r :
  set_index_remove_null_columns fuel df verbose = Returned r →
  column_labels (final_table r) `sublist_of` column_labels df ∧
  ((promotions (output r) = [] ∧
    index_name (final_table r) = index_name df ∧
    index (final_table r) `sublist_of` index df) ∨
   (∃ c, promotions (output r) = [c] ∧ index_name df = None ∧
         index_name (final_table r) = Some c ∧ c ∈ column_labels df ∧
         (c ∉ column_labels (final_table r)) ∧
         (rectangular df → NoDup (column_labels df) →
          ∃ k, k ∈ columns df ∧ label k = c ∧ dtype k ≠ "float64" ∧
               index (final_table r) `sublist_of` cells k ∧
               NoDup (index (final_table r)) ∧
               None ∉ index (final_table r)))).
Proof.
  revert fuel df r.
  apply (reducer_ind verbose
    (λ d r,
       column_labels (final_table r) `sublist_of` column_labels d ∧
       ((promotions (output r) = [] ∧
         index_name (final_table r) = index_name d ∧
         index (final_table r) `sublist_of` index d) ∨
        (∃ c, promotions (output r) = [c] ∧ index_name d = None ∧
              index_name (final_table r) = Some c ∧ c ∈ column_labels d ∧
              (c ∉ column_labels (final_table r)) ∧
              (rectangular d → NoDup (column_labels d) →
               ∃ k, k ∈ columns d ∧ label k = c ∧ dtype k ≠ "float64" ∧
                    index (final_table r) `sublist_of` cells k ∧
                    NoDup (index (final_table r)) ∧
                    None ∉ index (final_table r)))))).
  - intros d fc out Hfin Hshow. cbn [final_table output]. split.
    { unfold column_labels. by rewrite (columns_drop_null_rows d). }
    left. split_and!; [|done|apply select_sublist].
    destruct (final_display_events verbose (drop_null_rows d)
                (columns_statistics (drop_null_rows d)) fc) as (_ & Hp & _).
    rewrite Hshow in Hp. cbn [fst] in Hp.
    rewrite promotions_app, Hp, app_nil_r.
    by destruct (finish_printed d fc Hfin) as [->|[->|[? ->]]].
  - intros d d' r' Hre [Hlabels IH]. cbn [final_table output].
    pose proof (restart_labels d d' Hre) as Hsub.
    split; [by etrans|].
    rewrite promotions_app.
    destruct (restart_cases d d' Hre)
      as [(c & Hact & -> & ->)|(cs & msgs & Hact & -> & -> & Hmsgs)].
    + right. exists c.
      assert (c ∉ column_labels (final_table r')) as Hgone.
      { intros Hin. eapply set_index_removes, elem_of_sublist; eauto. }
      pose proof Hact as [Hdef Hc]%pass_promote.
      assert (index_name d = None) as Hnone.
      { apply andb_prop in Hdef as [Hdef _].
        by apply bool_decide_eq_true in Hdef. }
      assert (c ∈ column_labels d) as Hin.
      { unfold column_labels. rewrite <- columns_drop_null_rows.
        apply can_be_index_labels. rewrite Hc. by left. }
      destruct IH as [(Hno & Hname & Hidx)|(c' & _ & [=] & _)].
      rewrite Hno. split_and!; try done.
      intros Hrect Hnd.
      destruct (promoted_column d c Hrect Hnd Hact)
        as (k0 & Hk0 & Hl & Hd & Hcells & Huniq & Hnonnull).
      exists k0. split_and!; try done.
      * by etrans.
      * by eapply sublist_NoDup.
      * intros Hnull. by eapply Hnonnull, elem_of_sublist.
    + assert (promotions (msgs ++ [DroppingHeader; DroppingColumns cs]) = [])
        as ->.
      { by destruct Hmsgs as [->|[->|[? ->]]]. }
      cbn [app].
      destruct IH as [(Hno & Hname & Hidx)|(c & Hp & Hnone & Hname & Hin & Hgone & Hk)].
      * left. split_and!; try done. etrans; [exact Hidx|apply select_sublist].
      * right. exists c. split_and!; try done.
        { by eapply elem_of_sublist. }
        intros Hrect Hnd.
        destruct Hk as (k & Hk & Hl & Hd & Hcells & Huniq & Hnonnull).
        { apply drop_columns_rectangular.
          by apply drop_null_rows_rectangular. }
        { eapply sublist_NoDup; [exact Hnd|done]. }
        simpl in Hk. apply list_elem_of_filter in Hk as [_ Hk].
        apply list_elem_of_fmap in Hk as (k0 & -> & Hk0).
        exists k0. split_and!; try done.
        etrans; [exact Hcells|apply select_sublist].
Qed.

(** X8.  A run that returns has promoted at most one column.  When it has
    promoted none, the index keeps its name and its labels are a
    sub-sequence of the input's; when it has promoted [c], the input's index
    had no name, the final index is named [c], and [c] was a column of the
    input and is no column of the final frame. *)
Theorem at_most_one_promotion {plt : Matplotlib} (df : DataFrame)
    (verbose : bool) (r : Reduced) (Hrun : reduce df verbose = Returned r) :
  length (promotions (output r)) ≤ 1 ∧
  (promotions (output r) = [] →
     index_name (final_table r) = index_name df ∧
     index (final_table r) `sublist_of` index df) ∧
  (∀ c, c ∈ promotions (output r) →
     index_name df = None ∧ index_name (final_table r) = Some c ∧
     c ∈ column_labels df ∧ c ∉ column_labels (final_table r)).
Proof.
  unfold reduce in Hrun.
  destruct (index_run _ _ _ _ Hrun)
    as [_ [(Hno & Hname & Hidx)|(c & Hp & Hnone & Hname & Hin & Hgone & _)]].
  - rewrite Hno. split_and!; [simpl; lia|done|].
    by intros c ?%elem_of_nil.
  - rewrite Hp. split_and!; [simpl; lia|done|].
    by intros c' ->%list_elem_of_singleton.
Qed.

Lemma at_most_one_promotion_witness :
  ∃ r, reduce (plt := headless) table_ABC true = Returned r ∧
       promotions (output r) = ["A"] ∧
       index_name (final_table r) = Some "A" ∧
       "A" ∉ column_labels (final_table r).
Proof.
  destruct (reduce (plt := headless) table_ABC true) as [r| |] eqn:Hrun;
    [|by vm_compute in Hrun..].
  destruct (at_most_one_promotion (plt := headless) table_ABC true r Hrun)
    as (_ & _ & Hone).
  assert (promotions (output r) = ["A"]) as Hp.
  { vm_compute in Hrun. by injection Hrun as <-. }
  destruct (Hone "A") as (_ & Hname & _ & Hgone); [rewrite Hp; by left|].
  by exists r.
Defined.

(** X9.  The promoted index identifies the rows.  On a rectangular table with
    distinct column labels, when a run that returns has promoted [c], the
    labels of the final index are pairwise distinct, none is null, and they
    are a sub-sequence of the cells that column [c], whose dtype is not
    float64, held in the input. *)
Theorem promoted_index_unique {plt : Matplotlib} (df : DataFrame)
    (verbose : bool) (r : Reduced)
    (Hrect : rectangular df) (Hlabels : NoDup (column_labels df))
    (Hrun : reduce df verbose = Returned r) :
  ∀ c, c ∈ promotions (output r) →
    ∃ k, k ∈ columns df ∧ label k = c ∧ dtype k ≠ "float64" ∧
         index (final_table r) `sublist_of` cells k ∧
         NoDup (index (final_table r)) ∧
         None ∉ index (final_table r).
Proof.
  unfold reduce in Hrun.
  destruct (index_run _ _ _ _ Hrun)
    as [_ [(Hno & _)|(c & Hp & _ & _ & _ & _ & Hk)]].
  - rewrite Hno. by intros c ?%elem_of_nil.
  - rewrite Hp. intros c' ->%list_elem_of_singleton. by apply Hk.
Qed.

Lemma promoted_index_unique_witness :
  rectangular table_planets ∧ NoDup (column_labels table_planets) ∧
  ∃ r, reduce (plt := headless) table_planets false = Returned r ∧
       promotions (output r) = ["pl_name"] ∧
       NoDup (index (final_table r)) ∧ nrows (final_table r) = 4.
Proof.
  assert (rectangular table_planets) as Hrect by (by repeat constructor).
  assert (NoDup (column_labels table_planets)) as Hnd.
  { apply (bool_decide_unpack _). vm_compute. exact I. }
  split_and!; [exact Hrect|exact Hnd|].
  destruct (reduce (plt := headless) table_planets false) as [r| |] eqn:Hrun;
    [|by vm_compute in Hrun..].
  pose proof (promoted_index_unique (plt := headless) table_planets false r
                Hrect Hnd Hrun) as Hthm.
  assert (promotions (output r) = ["pl_name"] ∧ nrows (final_table r) = 4)
    as [Hp Hn].
  { vm_compute in Hrun. by injection Hrun as <-. }
  destruct (Hthm "pl_name") as (k & _ & _ & _ & _ & Huniq & _).
  { rewrite Hp. by left. }
  by exists r.
Defined.

(** ** Every removed column is reported *)

Lemma dropped_app (a b : list message) :
  dropped (a ++ b) = (dropped a ++ dropped b)%list.
Proof. apply bind_app. Qed.

Lemma labels_set_index c d l :
  l ∈ column_labels d → l ≠ c → l ∈ column_labels (set_index c d).
Proof.
  intros (k & -> & Hk)%list_elem_of_fmap Hne.
  apply list_elem_of_fmap_2. simpl. by apply list_elem_of_filter.
Qed.

Lemma labels_drop_columns cs d l :
  l ∈ column_labels d → l ∉ cs → l ∈ column_labels (drop_columns cs d).
Proof.
  intros (k & -> & Hk)%list_elem_of_fmap Hne.
  apply list_elem_of_fmap_2. simpl. by apply list_elem_of_filter.
Qed.

Lemma report_run {plt : Matplotlib} fuel df verbose r :
  set_index_remove_null_columns fuel df verbose = Returned r →
  column_labels (final_table r) `sublist_of` column_labels df ∧
  (∀ l, l ∈ column_labels df →
        l ∈ column_labels (final_table r) ∨
        l ∈ promotions (output r) ∨ l ∈ dropped (output r)) ∧
  (∀ l, l ∈ promotions (output r) ∨ l ∈ dropped (output r) →
        l ∈ column_labels df ∧ l ∉ column_labels (final_table r)).
Proof.
  revert fuel df r.
  apply (reducer_ind verbose
    (λ d r,
       column_labels (final_table r) `sublist_of` column_labels d ∧
       (∀ l, l ∈ column_labels d →
             l ∈ column_labels (final_table r) ∨
             l ∈ promotions (output r) ∨ l ∈ dropped (output r)) ∧
       (∀ l, l ∈ promotions (output r) ∨ l ∈ dropped (output r) →
             l ∈ column_labels d ∧ l ∉ column_labels (final_table r)))).
  - intros d fc out Hfin Hshow. cbn [final_table output].
    destruct (final_display_events verbose (drop_null_rows d)
                (columns_statistics (drop_null_rows d)) fc) as (_ & Hp & Hd).
    rewrite Hshow in Hp, Hd. cbn [fst] in Hp, Hd.
    rewrite promotions_app, dropped_app, Hp, Hd, !app_nil_r.
    assert (column_labels (drop_null_rows d) = column_labels d) as ->.
    { apply columns_drop_null_rows. }
    split_and!; [done|auto|].
    destruct (finish_printed d fc Hfin) as [->|[->|[? ->]]];
      by intros l [?%elem_of_nil|?%elem_of_nil].
  - intros d d' r' Hre (Hsub & Hall & Hrep). cbn [final_table output].
    pose proof (restart_labels d d' Hre) as Hsub'.
    rewrite promotions_app, dropped_app.
    assert (column_labels (drop_null_rows d) = column_labels d) as Hw.
    { apply columns_drop_null_rows. }
    split; [by etrans|].
    destruct (restart_cases d d' Hre)
      as [(c & Hact & -> & ->)|(cs & msgs & Hact & -> & -> & Hmsgs)].
    + apply pass_promote in Hact as [_ Hc].
      assert (c ∈ column_labels d) as Hin.
      { rewrite <- Hw. apply can_be_index_labels. rewrite Hc. by left. }
      cbn. split.
      * intros l Hl. destruct (decide (l = c)) as [->|Hne].
        { right. left. by left. }
        destruct (Hall l) as [?|[?|?]]; auto.
        { apply labels_set_index; [by rewrite Hw|done]. }
        right. left. by right.
      * intros l [[->|Hl]%elem_of_cons|Hl].
        { split; [done|]. intros Hfin.
          eapply set_index_removes, elem_of_sublist; eauto. }
        all: destruct (Hrep l) as [Hl' Hgone]; auto;
          split; [by eapply elem_of_sublist|done].
    + pose proof Hact as (-> & _ & _)%pass_prune.
      assert (promotions (msgs ++ [DroppingHeader; DroppingColumns
                (high_null_columns (nrows (drop_null_rows d))
                   (columns_statistics (drop_null_rows d)))]) = []) as ->.
      { by destruct Hmsgs as [->|[->|[? ->]]]. }
      assert (dropped (msgs ++ [DroppingHeader; DroppingColumns
                (high_null_columns (nrows (drop_null_rows d))
                   (columns_statistics (drop_null_rows d)))])
              = high_null_columns (nrows (drop_null_rows d))
                  (columns_statistics (drop_null_rows d))) as ->.
      { destruct Hmsgs as [->|[->|[? ->]]]; cbn; by rewrite app_nil_r. }
      cbn [app]. split.
      * intros l Hl.
        destruct (decide (l ∈ high_null_columns (nrows (drop_null_rows d))
                           (columns_statistics (drop_null_rows d))))
          as [Hhigh|Hlow].
        { right. right. apply elem_of_app. by left. }
        destruct (Hall l) as [?|[?|?]]; auto.
        { apply labels_drop_columns; [by rewrite Hw|done]. }
        right. right. apply elem_of_app. by right.
      * intros l [Hl|[Hl|Hl]%elem_of_app].
        2:{ split; [rewrite <- Hw; by apply high_null_labels|].
            intros Hfin. eapply drop_columns_removes; [exact Hl|].
            eapply elem_of_sublist; eauto. }
        all: destruct (Hrep l) as [Hl' Hgone]; auto;
          split; [by eapply elem_of_sublist|done].
Qed.

(** X10.  Nothing disappears silently.  In a run that returns, every column of
    the input is either a column of the final frame, or reported as promoted
    to the index, or listed in a report of dropped columns; and a column
    reported as promoted or dropped was a column of the input and is none of
    the final frame. *)
Theorem removed_columns_reported {plt : Matplotlib} (df : DataFrame)
    (verbose : bool) (r : Reduced) (Hrun : reduce df verbose = Returned r) :
  (∀ l, l ∈ column_labels df ↔
        l ∈ column_labels (final_table r) ∨
        l ∈ promotions (output r) ∨ l ∈ dropped (output r)) ∧
  (∀ l, l ∈ promotions (output r) ∨ l ∈ dropped (output r) →
        l ∉ column_labels (final_table r)).
Proof.
  unfold reduce in Hrun.
  destruct (report_run _ _ _ _ Hrun) as (Hsub & Hall & Hrep).
  split.
  - intros l. split; [by apply Hall|].
    intros [Hl|Hl]; [by eapply elem_of_sublist|by apply Hrep].
  - intros l Hl. by apply Hrep.
Qed.

Lemma removed_columns_reported_witness :
  ∃ r, reduce (plt := headless) table_ABC false = Returned r ∧
       column_labels (final_table r) = [] ∧
       promotions (output r) = ["A"] ∧ dropped (output r) = ["B"; "C"] ∧
       ∀ l, l ∈ column_labels table_ABC ↔
            l ∈ column_labels (final_table r) ∨
            l ∈ promotions (output r) ∨ l ∈ dropped (output r).
Proof.
  destruct (reduce (plt := headless) table_ABC false) as [r| |] eqn:Hrun;
    [|by vm_compute in Hrun..].
  exists r. split_and!; [done|vm_compute in Hrun; by injection Hrun as <-..|].
  exact (proj1 (removed_columns_reported (plt := headless) table_ABC false r
                  Hrun)).
Defined.

(** ** What the pruning step drops *)

Lemma high_null_iff n k :
  is_high_null n (column_stat n k) = true ↔
  nunique (cells k) ≤ 1 ∨ n / 2 ≤ count_nulls (cells k).
Proof.
  unfold is_high_null, column_stat. cbn [null_count].
  rewrite bool_decide_eq_true.
  pose proof (Nat.div_mod_eq n 2) as Hdiv.
  repeat case_bool_decide; split; try lia; intros _; lia.
Qed.

Lemma high_null_label d k :
  NoDup (column_labels d) → k ∈ columns d →
  label k ∈ high_null_columns (nrows d) (columns_statistics d) ↔
  is_high_null (nrows d) (column_stat (nrows d) k) = true.
Proof.
  intros Hnd Hk. split.
  - unfold high_null_columns.
    intros (s & Hl & [Hs Hin]%list_elem_of_filter)%list_elem_of_fmap.
    assert (s = column_stat (nrows d) k) as <-; [|by apply Is_true_true].
    apply (NoDup_fmap_eq stat_label (columns_statistics d)); try done.
    + by rewrite stat_labels.
    + unfold columns_statistics. by apply list_elem_of_fmap_2.
  - intros Hhigh.
    apply (high_null_elem _ _ (column_stat (nrows d) k)); [|done].
    unfold columns_statistics. by apply list_elem_of_fmap_2.
Qed.

(** X11.  What a pruning pass drops.  With distinct labels, a column of the
    working frame is dropped exactly when it has at most one distinct value
    or is null in at least [nrows // 2] rows; a column with two or more
    distinct values and fewer nulls is handed to the restart as it is. *)
Theorem pruning_exact (df : DataFrame) (cs : list string)
    (Hlabels : NoDup (column_labels df))
    (Hprune : act (reduce_pass df) = Prune cs) :
  let w := working (reduce_pass df) in
  ∀ k, k ∈ columns w →
    (label k ∈ cs ↔
     nunique (cells k) ≤ 1 ∨ nrows w / 2 ≤ count_nulls (cells k)) ∧
    (k ∈ columns (drop_columns cs w) ↔
     2 ≤ nunique (cells k) ∧ count_nulls (cells k) < nrows w / 2).
Proof.
  intros w k Hk. subst w. rewrite pass_working in *.
  apply pass_prune in Hprune as (-> & _ & _).
  assert (NoDup (column_labels (drop_null_rows df))) as Hnd.
  { unfold column_labels. by rewrite columns_drop_null_rows. }
  pose proof (high_null_label _ k Hnd Hk) as Hlab.
  pose proof (high_null_iff (nrows (drop_null_rows df)) k) as Hiff.
  split; [by rewrite Hlab|].
  cbn [columns drop_columns]. rewrite list_elem_of_filter, Hlab, Hiff.
  split; [intros [Hno _]|intros ?; split; [|done]]; lia.
Qed.

Lemma pruning_exact_witness :
  NoDup (column_labels table_sparse) ∧
  act (reduce_pass table_sparse) = Prune ["note"] ∧
  ∀ k, k ∈ columns table_sparse →
    (label k ∈ ["note"] ↔
     nunique (cells k) ≤ 1 ∨ 5 / 2 ≤ count_nulls (cells k)).
Proof.
  assert (NoDup (column_labels table_sparse)) as Hnd.
  { apply (bool_decide_unpack _). vm_compute. exact I. }
  assert (act (reduce_pass table_sparse) = Prune ["note"]) as Hact.
  { by vm_compute. }
  split_and!; [exact Hnd|exact Hact|].
  intros k Hk.
  exact (proj1 (pruning_exact table_sparse ["note"] Hnd Hact k Hk)).
Defined.

(** ** Empty rows and the default index *)

Lemma select_nil_inv {A} (mask : list bool) (l : list A) :
  length mask = length l → select mask l = [] →
  mask = replicate (length l) false.
Proof.
  revert l. induction mask as [|b mask IH]; intros [|x l]; simpl; try done.
  intros [= Hlen]. destruct b; [done|]. intros Hsel. f_equal. by apply IH.
Qed.

(** A mask that selects an initial segment of a range is a run of kept rows
    followed by a run of dropped rows. *)
Lemma select_seq_prefix (keep : list bool) a n k :
  length keep = n → select keep (seq a n) = seq a k →
  keep = (replicate k true ++ replicate (n - k) false)%list.
Proof.
  revert a n k. induction keep as [|b keep IH]; intros a n k Hlen.
  { subst n. destruct k; [done|]. simpl. discriminate. }
  destruct n as [|n]; [done|]. injection Hlen as Hlen.
  cbn [seq select]. destruct b.
  - destruct k as [|k]; [done|]. cbn [seq]. intros [= Hsel].
    cbn [replicate app Nat.sub]. f_equal. by apply (IH (S a)).
  - intros Hsel. destruct k as [|k].
    + cbn [replicate app Nat.sub]. f_equal.
      pose proof (select_nil_inv keep (seq (S a) n)) as Hinv.
      rewrite length_seq in Hinv. by apply Hinv.
    + cbn [seq] in Hsel.
      assert (a ∈ seq (S a) n) as Hin.
      { eapply elem_of_sublist; [|apply (select_sublist keep)].
        rewrite Hsel. by left. }
      apply elem_of_seq in Hin. lia.
Qed.

Lemma default_after_filter d :
  rectangular d →
  has_default_index (drop_null_rows d) = true →
  fmap (M := option) by_value <$> index d = range_index (nrows d) →
  negb <$> null_rows d
  = (replicate (nrows (drop_null_rows d)) true ++
     replicate (nrows d - nrows (drop_null_rows d)) false)%list.
Proof.
  intros Hrect Hdef Hidx.
  apply andb_prop in Hdef as [_ Hrange%bool_decide_eq_true].
  apply select_seq_prefix with (a := 0).
  { rewrite length_fmap. by apply length_null_rows. }
  cbn [index drop_null_rows] in Hrange.
  rewrite <- select_fmap, Hidx in Hrange.
  unfold range_index in Hrange. rewrite select_fmap in Hrange.
  assert (Inj (=) (=) (λ i : nat, Some (VInt (Z.of_nat i)))) as Hinj.
  { intros x y [= Hxy]. lia. }
  by apply (inj (fmap (λ i : nat, Some (VInt (Z.of_nat i))))).
Qed.

(** X12.  An empty row in the middle of the table blocks index promotion.  When
    a rectangular table on the default index has a row that is null in every
    column before a row that is not, the row filter leaves gaps in the index
    labels, the frame no longer counts as default-indexed, and the pass goes
    to the pruning step without looking for an index column. *)
Theorem interior_null_row_blocks_promotion (df : DataFrame) (i j : nat)
    (Hrect : rectangular df) (Hdefault : has_default_index df = true)
    (Hij : i < j)
    (Hi : null_rows df !! i = Some true)
    (Hj : null_rows df !! j = Some false) :
  has_default_index (drop_null_rows df) = false ∧
  (∀ c, act (reduce_pass df) ≠ Promote c) ∧
  reduce_pass df
  = prune_or_finish (drop_null_rows df)
      (columns_statistics (drop_null_rows df)) [].
Proof.
  assert (has_default_index (drop_null_rows df) = false) as Hgap.
  { destruct (has_default_index (drop_null_rows df)) eqn:Hdef; [|done].
    exfalso.
    pose proof Hdefault as [_ Hidx%bool_decide_eq_true]%andb_prop.
    pose proof (default_after_filter df Hrect Hdef Hidx) as Hkeep.
    set (k := nrows (drop_null_rows df)) in *.
    assert ((negb <$> null_rows df) !! i = Some false) as Hki.
    { by rewrite list_lookup_fmap, Hi. }
    assert ((negb <$> null_rows df) !! j = Some true) as Hkj.
    { by rewrite list_lookup_fmap, Hj. }
    rewrite Hkeep in Hki, Hkj.
    destruct (decide (j < k)) as [Hlt|Hge].
    - rewrite lookup_app_l in Hki by (rewrite length_replicate; lia).
      apply lookup_replicate in Hki as [[=] _].
    - rewrite lookup_app_r in Hkj by (rewrite length_replicate; lia).
      apply lookup_replicate in Hkj as [[=] _]. }
  split_and!; [done| |].
  - intros c [Hdef _]%pass_promote. congruence.
  - unfold reduce_pass. by rewrite Hgap.
Qed.

Lemma interior_null_row_blocks_promotion_witness :
  rectangular table_gap ∧ has_default_index table_gap = true ∧
  null_rows table_gap = [false; true; false] ∧
  has_default_index (drop_null_rows table_gap) = false ∧
  match reduce (plt := headless) table_gap false with
  | Returned r =>
      column_labels (final_table r) = ["name"] ∧
      index_name (final_table r) = None ∧ output r = []
  | _ => False
  end.
Proof.
  assert (rectangular table_gap) as Hrect by (by repeat constructor).
  assert (has_default_index table_gap = true) as Hdef by done.
  assert (null_rows table_gap !! 1 = Some true) as Hi by done.
  assert (null_rows table_gap !! 2 = Some false) as Hj by done.
  assert (1 < 2) as Hij by lia.
  pose proof (interior_null_row_blocks_promotion table_gap 1 2
                Hrect Hdef Hij Hi Hj) as Hthm.
  split_and!; [exact Hrect|exact Hdef|done|exact (proj1 Hthm)|by vm_compute].
Defined.

(** * Further properties of the loader *)

Lemma ends_with_app (s p : string) : ends_with s (p ++ s) = true.
Proof.
  induction p as [|c p IH].
  - change ("" ++ s)%string with s. destruct s; simpl.
    + done.
    + by rewrite Ascii.eqb_refl, String.eqb_refl.
  - rewrite append_cons. cbn [ends_with]. rewrite IH. apply orb_true_r.
Qed.

Lemma prefix_slash_app name s :
  String.prefix "/" name = true → String.prefix "/" (name ++ s) = true.
Proof.
  destruct name as [|c name]; [done|]. rewrite append_cons. simpl.
  case_match; [|done]. intros _. by destruct (name ++ s)%string.
Qed.

Lemma string_length_app (a b : string) :
  String.length (a ++ b) = String.length a + String.length b.
Proof.
  induction a as [|c a IH]; [done|]. rewrite append_cons. simpl.
  by rewrite IH.
Qed.

(** A name that lacks the suffix and the name with the suffix appended name
    the same file. *)
Lemma cache_file_suffix (project_path name : string) :
  ends_with ".csv" name = false →
  cache_file project_path (name ++ ".csv") = cache_file project_path name.
Proof.
  intros Hplain. unfold cache_file.
  by rewrite (ends_with_app ".csv" name), Hplain.
Qed.

(** On a name that has the suffix, appending it once more names a longer
    path. *)
Lemma cache_file_longer (project_path name : string) :
  ends_with ".csv" name = true →
  String.length (cache_file project_path (name ++ ".csv"))
  = String.length (cache_file project_path name) + 4.
Proof.
  intros Hcsv. unfold cache_file, os_path_join. cbn [foldl].
  rewrite (ends_with_app ".csv" name), Hcsv. cbn [negb].
  unfold join_component at 1 3.
  destruct (String.prefix "/" name) eqn:Hp.
  - rewrite (prefix_slash_app name ".csv" Hp). by rewrite string_length_app.
  - rewrite (prefix_slash_csv name Hp).
    destruct (_ || _); rewrite !string_length_app; simpl; lia.
Qed.

(** X13.  An absolute dataset name escapes the project directory: the cache
    file is the name itself (with [.csv] added when missing) and the project
    path plays no part. *)
Theorem absolute_name_ignores_project (project_path name : string)
    (Habs : String.prefix "/" name = true) :
  cache_file project_path name
  = (if ends_with ".csv" name then name else name ++ ".csv").
Proof.
  unfold cache_file, os_path_join. cbn [foldl].
  unfold join_component at 1.
  destruct (ends_with ".csv" name); cbn [negb].
  - by rewrite Habs.
  - by rewrite (prefix_slash_app name ".csv" Habs).
Qed.

Lemma absolute_name_ignores_project_witness :
  String.prefix "/" "/tmp/x" = true ∧
  cache_file "/home/u/exoplanets" "/tmp/x" = "/tmp/x.csv".
Proof.
  assert (String.prefix "/" "/tmp/x" = true) as Habs by done.
  split; [exact Habs|].
  exact (absolute_name_ignores_project "/home/u/exoplanets" "/tmp/x" Habs).
Defined.

Section loader_more.
Context `{Libraries}.

(** X14.  The [.csv] suffix is added only when missing.  A dataset name and
    the name with [.csv] appended name the same cache file exactly when the
    name does not already end in [.csv].  For such a name, after a call
    under it that failed neither in the query nor in the write, a call under
    the name with the suffix finds the file: it sends no query, leaves the
    files as they are and reads the same result. *)
Theorem csv_suffix_shares_cache (project_path name : string)
    (head1 head2 : option nat) (w : World)
    (Hquery : (load_exoplanet_data project_path name head1 w).1 ≠ QueryFailed)
    (Hwrite : (load_exoplanet_data project_path name head1 w).1 ≠ WriteFailed) :
  let first := load_exoplanet_data project_path name head1 w in
  let second :=
    load_exoplanet_data project_path (name ++ ".csv") head2 first.2 in
  (cache_file project_path (name ++ ".csv") = cache_file project_path name ↔
   ends_with ".csv" name = false) ∧
  (ends_with ".csv" name = false →
   fetches second.2 = fetches first.2 ∧ files second.2 = files first.2 ∧
   second.1 = first.1).
Proof.
  intros first second. split.
  - split; [|apply cache_file_suffix].
    intros Hsame. destruct (ends_with ".csv" name) eqn:Hcsv; [|done].
    pose proof (cache_file_longer project_path name Hcsv) as Hlen.
    rewrite Hsame in Hlen. lia.
  - intros Hplain.
    destruct (load_past_write project_path name head1 w Hquery Hwrite)
      as (content & Hcontent & Hres & _).
    fold first in Hcontent, Hres.
    rewrite <- (cache_file_suffix project_path name Hplain) in Hcontent.
    subst second. rewrite (load_cached _ _ _ _ content Hcontent).
    destruct (read_cache_world (cache_file project_path (name ++ ".csv"))
                (name ++ ".csv") head2 first.2) as [-> ->].
    split_and!; try done.
    by rewrite read_cache_result, Hcontent, Hres.
Qed.

End loader_more.

Lemma csv_suffix_shares_cache_witness :
  let w : @World sample_libraries :=
    {| files := ∅; writable := λ _, true; fetches := 0; console := [] |} in
  let first := load_exoplanet_data "/data" "pscomppars" None w in
  let second := load_exoplanet_data "/data" "pscomppars.csv" None first.2 in
  first.1 ≠ QueryFailed ∧ first.1 ≠ WriteFailed ∧
  ends_with ".csv" "pscomppars" = false ∧
  fetches first.2 = 1 ∧ fetches second.2 = 1 ∧ second.1 = Loaded table_XY.
Proof.
  intros w first second.
  assert (first.1 ≠ QueryFailed) as Hquery by (by vm_compute).
  assert (first.1 ≠ WriteFailed) as Hwrite by (by vm_compute).
  assert (ends_with ".csv" "pscomppars" = false) as Hplain by done.
  split_and!; [exact Hquery|exact Hwrite|exact Hplain|by vm_compute| |].
  - destruct (csv_suffix_shares_cache "/data" "pscomppars" None None w
                Hquery Hwrite) as (_ & Hshare).
    destruct (Hshare Hplain) as (Hfetch & _).
    etrans; [exact Hfetch|]. by vm_compute.
  - by vm_compute.
Defined.

Section loader_failures.
Context `{Libraries}.

(** X15.  A failed query is not cached.  When the cache file is missing and the
    query raises, the call fails having written nothing, and the next call
    with the same arguments queries the archive again; if that query answers
    and the file can be written, its table is what the cache file then
    holds, and if the file cannot be written the call fails in the write and
    again leaves nothing. *)
Theorem failed_query_not_cached (project_path name : string)
    (head1 head2 : option nat) (w : World)
    (Hmissing : files w !! cache_file project_path name = None)
    (Hfails : query_criteria (fetches w) = None) :
  let cache := cache_file project_path name in
  let first := load_exoplanet_data project_path name head1 w in
  let second := load_exoplanet_data project_path name head2 first.2 in
  first.1 = QueryFailed ∧ files first.2 = files w ∧
  fetches first.2 = S (fetches w) ∧
  fetches second.2 = S (S (fetches w)) ∧
  (query_criteria (S (fetches w)) = None →
     second.1 = QueryFailed ∧ files second.2 = files w) ∧
  (∀ t, query_criteria (S (fetches w)) = Some t →
     if writable w cache
     then files second.2 = <[cache := write_csv (strip_dex t).1]> (files w)
     else second.1 = WriteFailed ∧ files second.2 = files w).
Proof.
  intros cache first second.
  assert (first = (QueryFailed,
                   {| files := files w; writable := writable w;
                      fetches := S (fetches w);
                      console := (console w ++ [Downloading])%list |}))
    as Hfirst.
  { subst first. unfold load_exoplanet_data. by rewrite Hmissing, Hfails. }
  subst second. rewrite Hfirst. cbn [fst snd files fetches].
  unfold load_exoplanet_data. cbn [files fetches writable]. fold cache.
  fold cache in Hmissing. rewrite Hmissing.
  split_and!; try done.
  - destruct (query_criteria (S (fetches w))) as [t|]; [|done].
    destruct (strip_dex t) as [t' out].
    destruct (writable w cache); [|done].
    match goal with
    | |- context [read_cache ?f name head2 ?w0] =>
        by destruct (read_cache_world f name head2 w0) as [_ ->]
    end.
  - by intros ->.
  - intros t ->. destruct (strip_dex t) as [t' out] eqn:Hstrip.
    destruct (writable w cache); [|done].
    match goal with
    | |- context [read_cache ?f name head2 ?w0] =>
        by destruct (read_cache_world f name head2 w0) as [-> _]
    end.
Qed.

(** X16.  A cache file that does not parse is never replaced.  Once a call has
    failed in [pd.read_csv], whether on a file it found or on one it had just
    written, every later call with the same arguments fails the same way,
    sends no query and changes nothing. *)
Theorem unreadable_cache_sticks (project_path name : string)
    (head1 head2 : option nat) (w : World)
    (Hfailed : (load_exoplanet_data project_path name head1 w).1 = ReadFailed) :
  let w1 := (load_exoplanet_data project_path name head1 w).2 in
  load_exoplanet_data project_path name head2 w1 = (ReadFailed, w1) ∧
  ∃ content, files w1 !! cache_file project_path name = Some content ∧
             read_csv content = None.
Proof.
  intros w1.
  assert (∃ content, files w1 !! cache_file project_path name = Some content ∧
                     read_csv content = None)
    as (content & Hfile & Hbad).
  { subst w1. revert Hfailed. unfold load_exoplanet_data.
    destruct (files w !! cache_file project_path name) as [content|] eqn:Hc.
    - unfold read_cache. rewrite Hc. simpl.
      destruct (read_csv content) eqn:Hread; [done|]. intros _. simpl.
      by exists content.
    - destruct (query_criteria (fetches w)) as [t|]; [|done].
      destruct (strip_dex t) as [t' out].
      destruct (writable w _); [|done].
      unfold read_cache. cbn [files].
      rewrite lookup_insert_eq. simpl.
      destruct (read_csv (write_csv t')) eqn:Hread; [done|]. intros _. simpl.
      exists (write_csv t'). by rewrite lookup_insert_eq. }
  split; [|by exists content].
  unfold load_exoplanet_data, read_cache. rewrite Hfile. simpl.
  by rewrite Hbad.
Qed.

(** X17.  The dataset name only names the file.  Two names whose cache files
    are both missing, and either both can be written or both cannot, get
    from the same state of the world the same result, the same number of
    queries and the same content under their cache files. *)
Theorem name_only_names_file (project_path name1 name2 : string)
    (head1 head2 : option nat) (w : World)
    (Hmiss1 : files w !! cache_file project_path name1 = None)
    (Hmiss2 : files w !! cache_file project_path name2 = None)
    (Hsame : writable w (cache_file project_path name1)
             = writable w (cache_file project_path name2)) :
  let run1 := load_exoplanet_data project_path name1 head1 w in
  let run2 := load_exoplanet_data project_path name2 head2 w in
  run1.1 = run2.1 ∧ fetches run1.2 = fetches run2.2 ∧
  files run1.2 !! cache_file project_path name1
  = files run2.2 !! cache_file project_path name2.
Proof.
  intros run1 run2. subst run1 run2. unfold load_exoplanet_data.
  rewrite Hmiss1, Hmiss2, Hsame. clear Hsame.
  destruct (query_criteria (fetches w)) as [t|];
    [|cbn [fst snd files]; by rewrite Hmiss1, Hmiss2].
  destruct (strip_dex t) as [t' out].
  destruct (writable w _);
    [|cbn [fst snd files]; by rewrite Hmiss1, Hmiss2].
  repeat match goal with
  | |- context [read_cache ?f ?n ?h ?w0] =>
      destruct (read_cache_world f n h w0) as [-> ->];
      rewrite (read_cache_result f n h w0)
  end.
  cbn [files fetches]. by rewrite !lookup_insert_eq.
Qed.

End loader_failures.

Lemma failed_query_not_cached_witness :
  let w : @World flaky_libraries :=
    {| files := ∅; writable := λ _, true; fetches := 0; console := [] |} in
  let first := load_exoplanet_data "/data" "pscomppars" None w in
  let second := load_exoplanet_data "/data" "pscomppars" None first.2 in
  files w !! cache_file "/data" "pscomppars" = None ∧
  @query_criteria flaky_libraries (fetches w) = None ∧
  first.1 = QueryFailed ∧ fetches second.2 = 2 ∧
  second.1 = Loaded table_XY.
Proof.
  intros w first second.
  assert (files w !! cache_file "/data" "pscomppars" = None) as Hmiss by done.
  assert (@query_criteria flaky_libraries (fetches w) = None) as Hfail by done.
  destruct (failed_query_not_cached "/data" "pscomppars" None None w
              Hmiss Hfail) as (Hfirst & _ & _ & Hfetch & _).
  split_and!; [exact Hmiss|exact Hfail|exact Hfirst|exact Hfetch|by vm_compute].
Defined.

Lemma unreadable_cache_sticks_witness :
  let w : @World unreadable_libraries :=
    {| files := ∅; writable := λ _, true; fetches := 0; console := [] |} in
  let first := load_exoplanet_data "/data" "pscomppars" None w in
  first.1 = ReadFailed ∧ fetches first.2 = 1 ∧
  load_exoplanet_data "/data" "pscomppars" (Some 5) first.2
  = (ReadFailed, first.2).
Proof.
  intros w first.
  assert (first.1 = ReadFailed) as Hfailed by (by vm_compute).
  split_and!; [exact Hfailed|by vm_compute|].
  exact (proj1 (unreadable_cache_sticks "/data" "pscomppars" None (Some 5) w
                  Hfailed)).
Defined.

Lemma name_only_names_file_witness :
  let w : @World sample_libraries :=
    {| files := ∅; writable := λ _, true; fetches := 0; console := [] |} in
  files w !! cache_file "/data" "pscomppars" = None ∧
  files w !! cache_file "/data" "toi" = None ∧
  writable w (cache_file "/data" "pscomppars")
  = writable w (cache_file "/data" "toi") ∧
  (load_exoplanet_data "/data" "pscomppars" None w).1 = Loaded table_XY ∧
  (load_exoplanet_data "/data" "toi" None w).1 = Loaded table_XY.
Proof.
  intros w.
  assert (files w !! cache_file "/data" "pscomppars" = None) as H1 by done.
  assert (files w !! cache_file "/data" "toi" = None) as H2 by done.
  assert (writable w (cache_file "/data" "pscomppars")
          = writable w (cache_file "/data" "toi")) as Hsame by done.
  pose proof (proj1 (name_only_names_file "/data" "pscomppars" "toi" None None
                       w H1 H2 Hsame)) as Heq.
  split_and!; [exact H1|exact H2|exact Hsame|by vm_compute|].
  rewrite <- Heq. by vm_compute.
Defined.

Section loader_units.
Context `{Libraries}.




End loader_units.


(** * One copy per pass *)

Lemma store_size fuel df (h : Store.heap) d :
  h !! df = Some d → ncols d < fuel →
  size h < size (Store.set_index_remove_null_columns fuel df h).2 ∧
  size (Store.set_index_remove_null_columns fuel df h).2
  ≤ size h + S (ncols d).
Proof.
  revert df h d. induction fuel as [|fuel IH]; intros df h d Hdf Hlt; [lia|].
  simpl. rewrite Hdf.
  pose proof (fresh_unused h) as Hfresh.
  assert (size (<[fresh (dom h) := working (reduce_pass d)]> h)
          = S (size h)) as Hsize by by apply map_size_insert_None.
  destruct (restart (reduce_pass d)) as [d'|] eqn:Hre.
  - pose proof (restart_decreases d d' Hre) as Hdec.
    assert (∀ x, size (<[fresh (dom h) := x]>
                         (<[fresh (dom h) := working (reduce_pass d)]> h))
                 = S (size h)) as Hsize'.
    { intros x. rewrite insert_insert_eq.
      by apply map_size_insert_None. }
    unfold restart in Hre.
    destruct (act (reduce_pass d)) as [c|cs| |fc]; [| |done|done];
      injection Hre as <-; rewrite ?assertion_holds;
      [ destruct (IH (fresh (dom h))
          (<[fresh (dom h) := set_index c (working (reduce_pass d))]>
             (<[fresh (dom h) := working (reduce_pass d)]> h))
          (set_index c (working (reduce_pass d))))
          as [Hlo Hhi]
      | destruct (IH (fresh (dom h))
          (<[fresh (dom h) := drop_columns cs (working (reduce_pass d))]>
             (<[fresh (dom h) := working (reduce_pass d)]> h))
          (drop_columns cs (working (reduce_pass d))))
          as [Hlo Hhi] ];
      try apply lookup_insert_eq; try lia;
      rewrite Hsize' in Hlo, Hhi; lia.
  - unfold restart in Hre.
    destruct (act (reduce_pass d)) as [c|cs| |fc]; try done; simpl; lia.
Qed.

(** X19.  The reducer copies the table once per pass.  Each pass binds one
    new row-filtered frame and none is ever released by the call, so a call
    on a frame of [n] columns adds between one and [n + 1] frames to the
    heap. *)
Theorem one_copy_per_pass (h : Store.heap) (df : Store.ref) (d : DataFrame)
    (Hdf : h !! df = Some d) :
  let h' := (Store.set_index_remove_null_columns (S (ncols d)) df h).2 in
  size h < size h' ∧ size h' ≤ size h + S (ncols d).
Proof. apply store_size; [done|lia]. Qed.

Lemma one_copy_per_pass_witness :
  ({[0 := table_ABC]} : Store.heap) !! 0 = Some table_ABC ∧
  size (Store.set_index_remove_null_columns 4 0 {[0 := table_ABC]}).2 ≤ 5.
Proof.
  assert (({[0 := table_ABC]} : Store.heap) !! 0 = Some table_ABC)
    as Hdf by done.
  split; [exact Hdf|].
  destruct (one_copy_per_pass {[0 := table_ABC]} 0 table_ABC Hdf) as [_ Hhi].
  rewrite map_size_singleton in Hhi. exact Hhi.
Defined.
(** * What the feature counts count *)

Lemma series_get_None k (s : Series) : k ∉ s.*1 → series_get k s = None.
Proof.
  induction s as [|[k' v] s IH]; [done|]. rewrite fmap_cons. simpl.
  intros [Hne Hk]%not_elem_of_cons. rewrite decide_False by done. auto.
Qed.

Lemma count_of_absent k l : k ∉ l → count_of k l = 0%Z.
Proof.
  intros Hk. unfold count_of.
  assert (filter (λ x, x = k) l = []) as ->; [|done].
  induction l as [|x l IH]; [done|].
  apply not_elem_of_cons in Hk as [Hne Hk].
  rewrite filter_cons_False by done. auto.
Qed.

(** Looking a key up in [value_counts], with 0 for a missing key, counts the
    key. *)
Lemma value_counts_get k l :
  default 0%Z (series_get k (value_counts l)) = count_of k l.
Proof.
  destruct (decide (k ∈ (value_counts l).*1)) as [Hin|Hout].
  - by rewrite (series_get_entry (λ k, count_of k l) _ _
                  (value_counts_entries l) Hin).
  - rewrite (series_get_None _ _ Hout). symmetry. apply count_of_absent.
    intros Hk. apply Hout. rewrite value_counts_keys.
    by apply elem_of_unique.
Qed.

Lemma count_of_fmap {A} (f : A → string) k (l : list A) :
  count_of k (f <$> l) = Z.of_nat (length (filter (λ x, f x = k) l)).
Proof.
  unfold count_of. f_equal.
  rewrite <- (fmap_filter_comm f (λ x, f x = k) (λ y, y = k)) by done.
  apply length_fmap.
Qed.

Lemma filter_ext_elem {A} (P Q : A → Prop)
    `{!∀ x, Decision (P x)} `{!∀ x, Decision (Q x)} (l : list A) :
  (∀ x, x ∈ l → P x ↔ Q x) → filter P l = filter Q l.
Proof.
  induction l as [|x l IH]; intros Hext; [done|].
  rewrite !filter_cons.
  destruct (decide (P x)) as [HP|HP], (decide (Q x)) as [HQ|HQ].
  - f_equal. apply IH. intros y Hy. apply Hext. by right.
  - destruct HQ. apply Hext; [by left|done].
  - destruct HP. apply Hext; [by left|done].
  - apply IH. intros y Hy. apply Hext. by right.
Qed.

Lemma length_filter_mono {A} (P Q : A → Prop)
    `{!∀ x, Decision (P x)} `{!∀ x, Decision (Q x)} (l : list A) :
  (∀ x, x ∈ l → P x → Q x) → length (filter P l) ≤ length (filter Q l).
Proof.
  induction l as [|x l IH]; intros Himp; [done|].
  rewrite !filter_cons.
  assert (length (filter P l) ≤ length (filter Q l)) as Hle.
  { apply IH. intros y Hy. apply Himp. by right. }
  destruct (decide (P x)) as [HP|HP], (decide (Q x)) as [HQ|HQ]; simpl;
    try lia.
  destruct HQ. apply Himp; [by left|done].
Qed.

(** The counts of one row, for any frame and its statistics. *)
Lemma feature_row_entries df row :
  row ∈ per_dtype (feature_counts df (columns_statistics df)) →
  without_nulls row
  = Z.of_nat (length (filter (λ k, dtype k = row_key row)
       (filter (λ k, null_count (column_stat (nrows df) k) = 0)
               (columns df)))) ∧
  fully_unique row
  = Z.of_nat (length (filter (λ k, dtype k = row_key row)
       (filter (λ k, is_fully_unique (nrows df) (column_stat (nrows df) k))
               (columns df)))).
Proof.
  unfold feature_counts. cbn [per_dtype]. unfold dtype_rows.
  intros (p & -> & Hp)%list_elem_of_fmap. cbn [without_nulls fully_unique row_key].
  assert (∀ (P : ColumnStat → Prop) `{!∀ s, Decision (P s)} k,
            count_of k (data_type <$> filter P (columns_statistics df))
            = Z.of_nat (length (filter (λ c, dtype c = k)
                (filter (λ c, P (column_stat (nrows df) c)) (columns df)))))
    as Hcount.
  { intros P ? k. unfold columns_statistics.
    rewrite <- (fmap_filter_comm (column_stat (nrows df))
                  (λ c, P (column_stat (nrows df) c)) P) by done.
    rewrite <- list_fmap_compose. apply (count_of_fmap (λ c, dtype c)). }
  split.
  - unfold reindex in Hp.
    apply list_elem_of_fmap in Hp as (k & -> & Hk). cbn [fst snd].
    by rewrite value_counts_get, Hcount.
  - pose proof (reindex_entries (value_counts (dtype <$> columns df)).*1
      (value_counts (data_type <$>
         filter (λ s, is_fully_unique (nrows df) s)
                (columns_statistics df)))) as He.
    assert (p.1 ∈ (value_counts (dtype <$> columns df)).*1) as Hkey.
    { rewrite <- (reindex_keys _
        (value_counts (data_type <$> filter (λ s, null_count s = 0)
                                       (columns_statistics df)))).
      by apply list_elem_of_fmap_2. }
    rewrite (series_get_entry
               (λ k, default 0%Z (series_get k
                  (value_counts (data_type <$>
                     filter (λ s, is_fully_unique (nrows df) s)
                            (columns_statistics df))))) _ _ He).
    + cbn [default]. by rewrite value_counts_get, Hcount.
    + by rewrite reindex_keys.
Qed.

(** X21.  What the first two feature counts count.  In the feature counts a run
    on a rectangular table returns, 'Features Without Nulls' of a dtype is
    the number of remaining columns of that dtype without a null, and
    'Features Fully Unique' the number of them whose values are all distinct;
    the fully-unique ones are among the null-free ones, so
    0 <= fully unique <= without nulls <= total per dtype. *)
Theorem feature_counts_meaning {plt : Matplotlib} (df : DataFrame)
    (verbose : bool) (r : Reduced)
    (Hrect : rectangular df) (Hrun : reduce df verbose = Returned r) :
  ∀ row, row ∈ per_dtype (counts r) →
    without_nulls row
    = Z.of_nat (length (filter (λ k, dtype k = row_key row)
         (filter (λ k, count_nulls (cells k) = 0)
                 (columns (final_table r))))) ∧
    fully_unique row
    = Z.of_nat (length (filter (λ k, dtype k = row_key row)
         (filter (λ k, nunique (cells k) = nrows (final_table r))
                 (columns (final_table r))))) ∧
    (0 ≤ fully_unique row ≤ without_nulls row)%Z ∧
    (without_nulls row ≤ total_per_dtype row)%Z.
Proof.
  unfold reduce in Hrun.
  pose proof (λ k, final_columns_kept _ _ _ _ k Hrun) as Hkept.
  apply reducer_final in Hrun as (d & _ & Hd & Hfinal & Hstats & Hfin & _).
  apply pass_finish in Hfin as [_ Hfc].
  assert (rectangular (final_table r)) as Hw.
  { rewrite Hfinal. by apply drop_null_rows_rectangular, Hd. }
  rewrite <- Hfinal in Hfc. rewrite Hfc. clear Hfc Hstats Hfinal Hd.
  set (w := final_table r) in *. intros row Hrow.
  destruct (feature_row_entries w row Hrow) as [Hnn Hfu].
  pose proof (dtype_row_counts_columns w _ row Hrow) as Htot.
  rewrite (count_of_fmap (λ c, dtype c)) in Htot.
  assert (∀ k, k ∈ columns w →
            column_stat (nrows w) k
            = mkStat (label k) (dtype k) (count_nulls (cells k))
                     (nunique (cells k))) as Hraw.
  { intros k Hk. by destruct (kept_column_facts _ k (Hkept k Hk))
      as (_ & _ & _ & ?). }
  rewrite (filter_ext_elem
             (λ k, null_count (column_stat (nrows w) k) = 0)
             (λ k, count_nulls (cells k) = 0)) in Hnn.
  2:{ intros k Hk. by rewrite (Hraw k Hk). }
  rewrite (filter_ext_elem
             (λ k, is_fully_unique (nrows w) (column_stat (nrows w) k))
             (λ k, nunique (cells k) = nrows w)) in Hfu.
  2:{ intros k Hk. rewrite (Hraw k Hk). unfold is_fully_unique. simpl.
      apply bool_decide_spec. }
  split_and!; [done|done| | |].
  - rewrite Hfu. lia.
  - rewrite Hnn, Hfu, !list_filter_filter. apply inj_le.
    apply length_filter_mono. intros k Hk [Hdt Hu]. split; [done|].
    pose proof (nunique_bound (cells k)) as Hb.
    pose proof (proj1 (Forall_forall _ _) Hw k Hk) as Hlen.
    simpl in Hlen. lia.
  - rewrite Hnn, Htot, list_filter_filter. apply inj_le.
    apply length_filter_mono. by intros k _ [Hdt _].
Qed.

Lemma feature_counts_meaning_witness :
  rectangular table_sparse ∧
  ∃ r, reduce (plt := headless) table_sparse false = Returned r ∧
       per_dtype (counts r)
       = [mkRow "float64" 0 0 1 1; mkRow "object" 1 0 0 1] ∧
       ∀ row, row ∈ per_dtype (counts r) →
         (0 ≤ fully_unique row ≤ without_nulls row)%Z.
Proof.
  assert (rectangular table_sparse) as Hrect by (by repeat constructor).
  split; [exact Hrect|].
  destruct (reduce (plt := headless) table_sparse false) as [r| |] eqn:Hrun;
    [|by vm_compute in Hrun..].
  pose proof (feature_counts_meaning (plt := headless) table_sparse false r
                Hrect Hrun) as Hthm.
  exists r. split_and!; [done| |].
  - vm_compute in Hrun. by injection Hrun as <-.
  - intros row Hrow. by destruct (Hthm row Hrow) as (_ & _ & Hle & _).
Defined.

(** * When the reducer raises *)








